(** * Outline mailer: a shallow embedding of [server/mailer.js]

    The [Mailer] class resolves a nodemailer transport from [process.env],
    renders and sends one message through it ([sendMail]), offers one
    dispatcher method per notification type, and enqueues templated requests
    on [emailsQueue] ([sendTemplate]).

    The class is effectful: it reads the environment, mutates
    [this.transporter], logs, and calls collaborators (nodemailer, oy-vey,
    Sentry, the queue).  The embedding threads an explicit state (the
    [transporter] field together with the chronological list of collaborator
    calls) through a small promise monad whose results are [Resolved] or
    [Rejected]. *)

From stdpp Require Import gmap strings list.
From Stdlib Require Import ZArith Ascii.

Open Scope string_scope.
Open Scope list_scope.
Open Scope Z_scope.

(** ** JavaScript values and strings *)

(** Strings are sequences of bytes: a character outside ASCII is held as its
    UTF-8 encoding, so that equality of strings is equality of the texts. *)

(** The plain data that crosses the queue or sits in a configuration object. *)
Inductive Value : Type :=
| VUndefined
| VBool (b : bool)
| VNumber (n : Z)
| VString (s : string)
| VObject (fields : Fields)
with Fields : Type :=
| FNil
| FCons (key : string) (v : Value) (rest : Fields).

(** A property of [process.env] is a string or [undefined]. *)
Definition of_env (v : option string) : Value :=
  match v with
  | Some s => VString s
  | None => VUndefined
  end.

(** JavaScript truthiness of a string-or-undefined: the empty string and
    [undefined] are falsy. *)
Definition truthy (v : option string) : bool :=
  match v with
  | Some s => negb (String.eqb s EmptyString)
  | None => false
  end.

(** [a || b] on string-or-undefined operands. *)
Definition or_else (a b : option string) : option string :=
  if truthy a then a else b.

(** [v === lit] for a string-or-undefined [v] and a string literal. *)
Definition strict_eq (v : option string) (lit : string) : bool :=
  match v with
  | Some s => String.eqb s lit
  | None => false
  end.

(** ["k" in process.env] *)
Definition has_key (k : string) (env : gmap string string) : bool :=
  bool_decide (is_Some (env !! k)).

(** [Array.prototype.join] on an array of strings and [undefined]s:
    an [undefined] element contributes the empty string. *)
Fixpoint join (sep : string) (xs : list (option string)) : string :=
  match xs with
  | [] => EmptyString
  | [x] => default EmptyString x
  | x :: rest => default EmptyString x +:+ sep +:+ join sep rest
  end.

(** The double quote character, as a one-character string. *)
Definition dquote : string := String "034"%char EmptyString.

(** ** Data of the mailer *)

Record Error : Type := { message : string }.

(** The options objects of the dispatcher methods whose shape is written out
    in [mailer.js]. *)
Record WelcomeOpts : Type := { welcome_to : string; welcome_teamUrl : string }.
Record ExportSuccessOpts : Type :=
  { exportSuccess_to : string; exportSuccess_id : string; exportSuccess_teamUrl : string }.
Record ExportFailureOpts : Type :=
  { exportFailure_to : string; exportFailure_teamUrl : string }.
Record SigninOpts : Type :=
  { signin_to : string; signin_token : string; signin_teamUrl : string }.

(** [{ to: string } & P]: a recipient together with the props of a template. *)
Record WithTo (P : Type) : Type := { to : string; props : P }.
Arguments to {P} _.
Arguments props {P} _.

(** The modules under [./emails] are imported by [mailer.js] and are not part
    of the verified file: their prop types, the fields of those props that
    the mailer reads, their plain-text renderers and the base stylesheet are
    an interface. *)
Class EmailTemplates : Type := {
  InviteEmailT : Type;
  actorName : InviteEmailT → string;
  teamName : InviteEmailT → string;
  DocumentNotificationEmailT : Type;
  document_title : DocumentNotificationEmailT → string;
  document_eventName : DocumentNotificationEmailT → string;
  document_actor_name : DocumentNotificationEmailT → string;
  CollectionNotificationEmailT : Type;
  collection_name : CollectionNotificationEmailT → string;
  collection_eventName : CollectionNotificationEmailT → string;
  collection_actor_name : CollectionNotificationEmailT → string;
  welcomeEmailText : WelcomeOpts → string;
  exportEmailSuccessText : string;
  exportEmailFailureText : string;
  inviteEmailText : WithTo InviteEmailT → string;
  signinEmailText : SigninOpts → string;
  documentNotificationEmailText : WithTo DocumentNotificationEmailT → string;
  collectionNotificationEmailText : WithTo CollectionNotificationEmailT → string;
  baseStyles : string
}.

(** nodemailer's configuration objects. *)
Record Auth : Type := { user : Value; pass : Value }.
Record Tls : Type := { ciphers : Value }.
Record SmtpConfig : Type := {
  host : Value;
  port : Value;
  secure : bool;
  auth : option Auth;
  tls : option Tls
}.

(** The object returned by [nodemailer.createTransport]. *)
Record Transport : Type := { options : SmtpConfig }.

(** The account returned by [nodemailer.createTestAccount]. *)
Record TestAccount : Type := { account_user : string; account_pass : string }.

(** What [transporter.sendMail] resolves to. *)
Record SentInfo : Type := { messageId : string }.

(** The argument of [transporter.sendMail]. *)
Record Envelope : Type := {
  env_from : option string;
  env_replyTo : option string;
  env_to : string;
  env_subject : string;
  env_html : string;
  env_text : string
}.

(** The second argument of [Oy.renderTemplate]. *)
Record RenderOpts : Type := {
  render_title : string;
  render_headCSS : string;
  render_previewText : option string
}.

(** The two arguments of [emailsQueue.add]. *)
Record Job : Type := { job_type : string; job_opts : Value }.
Record Backoff : Type := { backoff_type : string; backoff_delay : Z }.
Record JobOptions : Type := {
  attempts : Z;
  removeOnComplete : bool;
  backoff : Backoff
}.

(** Settled promises. *)
Inductive Outcome (A : Type) : Type :=
| Resolved (a : A)
| Rejected (e : Error).
Arguments Resolved {A} a.
Arguments Rejected {A} e.

Section Mailer.
Context `{EmailTemplates}.

(** The React elements built by the dispatcher methods. *)
Inductive ReactNode : Type :=
| WelcomeEmail (opts : WelcomeOpts)
| ExportSuccessEmail (id teamUrl : string)
| ExportFailureEmail (teamUrl : string)
| InviteEmail (opts : WithTo InviteEmailT)
| SigninEmail (opts : SigninOpts)
| DocumentNotificationEmail (opts : WithTo DocumentNotificationEmailT)
| CollectionNotificationEmail (opts : WithTo CollectionNotificationEmailT).

(** [EmailSendOptions]; the optional [properties] is never read by the
    mailer and is left out. *)
Record EmailSendOptions : Type := {
  send_to : string;
  title : string;
  previewText : option string;
  text : string;
  html : ReactNode;
  headCSS : option string
}.

(** Calls made to the collaborators, in the order they happen. *)
Inductive Event : Type :=
| ELog (fmt : string) (args : list Value)
| ECreateTransport (cfg : SmtpConfig)
| ECreateTestAccount
| ERenderTemplate (node : ReactNode) (opts : RenderOpts)
| ETransportSendMail (t : Transport) (envelope : Envelope)
| EGetTestMessageUrl (info : SentInfo)
| ESentryCapture (err : Error)
| EQueueAdd (job : Job) (opts : JobOptions).

(** The mutable field of the [Mailer] object and the calls made so far. *)
Record State : Type := {
  transporter : option Transport;
  effects : list Event
}.

(** The environment and the behaviour of the collaborators. *)
Record World : Type := {
  env : gmap string string;
  createTestAccount_result : Outcome TestAccount;
  transport_sendMail_result : Transport → Envelope → Outcome SentInfo;
  getTestMessageUrl_result : SentInfo → Value;
  renderTemplate_result : ReactNode → RenderOpts → string;
  renderTemplate_error : RenderOpts → Error;
  queue_add_result : Job → JobOptions → Outcome unit
}.

(** ** The promise monad *)

Definition Async (A : Type) : Type := State → Outcome A * State.

#[export] Instance Async_ret : MRet Async :=
  λ A a s, (Resolved a, s).

#[export] Instance Async_bind : MBind Async :=
  λ A B k m s,
    match m s with
    | (Resolved a, s') => k a s'
    | (Rejected e, s') => (Rejected e, s')
    end.

Definition throw {A : Type} (e : Error) : Async A :=
  λ s, (Rejected e, s).

(** [try { m } catch (err) { h err }] *)
Definition try_catch {A : Type} (m : Async A) (h : Error → Async A) : Async A :=
  λ s,
    match m s with
    | (Resolved a, s') => (Resolved a, s')
    | (Rejected e, s') => h e s'
    end.

(** [await p] for a promise [p] that settles as [r]. *)
Definition await {A : Type} (r : Outcome A) : Async A :=
  λ s, (r, s).

(** A call of an async function whose promise is dropped: the callee's
    effects happen, its result (also a rejection) reaches nobody. *)
Definition detach {A : Type} (m : Async A) : Async unit :=
  λ s, (Resolved tt, (m s).2).

Definition emit (ev : Event) : Async unit :=
  λ s, (Resolved tt, {| transporter := transporter s; effects := effects s ++ [ev] |}).

Definition get_transporter : Async (option Transport) :=
  λ s, (Resolved (transporter s), s).

Definition set_transporter (t : Transport) : Async unit :=
  λ s, (Resolved tt, {| transporter := Some t; effects := effects s |}).

(** ** Collaborators *)

Definition log (msg : string) : Async unit := emit (ELog msg []).

Definition log_with (fmt : string) (arg : Value) : Async unit := emit (ELog fmt [arg]).

Definition nodemailer_createTransport (cfg : SmtpConfig) : Async Transport :=
  emit (ECreateTransport cfg);; mret {| options := cfg |}.

Definition nodemailer_createTestAccount (w : World) : Async TestAccount :=
  emit ECreateTestAccount;; await (createTestAccount_result w).

Definition nodemailer_getTestMessageUrl (w : World) (info : SentInfo) : Async Value :=
  emit (EGetTestMessageUrl info);; mret (getTestMessageUrl_result w info).

(** [Oy.renderTemplate] belongs to the oy-vey package, not to this
    repository.  Its default template requires the options [title] and
    [previewText] (and a body, which every template element renders to):
    when either is missing or empty it throws ([renderTemplate_error]), and
    otherwise it returns the document ([renderTemplate_result]). *)
Definition Oy_accepts (opts : RenderOpts) : bool :=
  truthy (Some (render_title opts)) && truthy (render_previewText opts).

Definition Oy_renderTemplate (w : World) (node : ReactNode) (opts : RenderOpts) : Async string :=
  emit (ERenderTemplate node opts);;
  if Oy_accepts opts
  then mret (renderTemplate_result w node opts)
  else throw (renderTemplate_error w opts).

Definition transporter_sendMail (w : World) (t : Transport) (envelope : Envelope) : Async SentInfo :=
  emit (ETransportSendMail t envelope);; await (transport_sendMail_result w t envelope).

Definition Sentry_captureException (err : Error) : Async unit :=
  emit (ESentryCapture err).

Definition emailsQueue_add (w : World) (job : Job) (opts : JobOptions) : Async unit :=
  emit (EQueueAdd job opts);; await (queue_add_result w job opts).

(** ** The module constant and the class *)

Definition useTestEmailService (w : World) : bool :=
  strict_eq (env w !! "NODE_ENV") "development" && negb (truthy (env w !! "SMTP_USERNAME")).

Definition with_auth (cfg : SmtpConfig) (a : Auth) : SmtpConfig :=
  {| host := host cfg; port := port cfg; secure := secure cfg;
     auth := Some a; tls := tls cfg |}.

Definition loadTransport (w : World) : Async unit :=
  if truthy (env w !! "SMTP_HOST") then
    let smtpConfig :=
      {| host := of_env (env w !! "SMTP_HOST");
         port := of_env (env w !! "SMTP_PORT");
         secure :=
           if has_key "SMTP_SECURE" (env w)
           then strict_eq (env w !! "SMTP_SECURE") "true"
           else strict_eq (env w !! "NODE_ENV") "production";
         auth := None;
         tls :=
           if has_key "SMTP_TLS_CIPHERS" (env w)
           then Some {| ciphers := of_env (env w !! "SMTP_TLS_CIPHERS") |}
           else None |} in
    let smtpConfig :=
      if truthy (env w !! "SMTP_USERNAME")
      then with_auth smtpConfig
             {| user := of_env (env w !! "SMTP_USERNAME");
                pass := of_env (env w !! "SMTP_PASSWORD") |}
      else smtpConfig in
    t ← nodemailer_createTransport smtpConfig;
    set_transporter t
  else if useTestEmailService w then
    log "SMTP_USERNAME not provided, generating test account…";;
    try_catch
      (testAccount ← nodemailer_createTestAccount w;
       let smtpConfig :=
         {| host := VString "smtp.ethereal.email";
            port := VNumber 587;
            secure := false;
            auth := Some {| user := VString (account_user testAccount);
                            pass := VString (account_pass testAccount) |};
            tls := None |} in
       t ← nodemailer_createTransport smtpConfig;
       set_transporter t)
      (λ err, log ("Could not generate test account: " +:+ message err))
  else mret tt.

(** The object as [new Mailer()] finds it: the field is [undefined] and
    nothing has been called. *)
Definition new_Mailer : State := {| transporter := None; effects := [] |}.

Definition sendMail (w : World) (data : EmailSendOptions) : Async unit :=
  transporter ← get_transporter;
  match transporter with
  | Some transporter =>
      html ← Oy_renderTemplate w (html data)
        {| render_title := title data;
           render_headCSS := join " " [Some baseStyles; headCSS data];
           render_previewText := previewText data |};
      try_catch
        (log ("Sending email " +:+ dquote +:+ title data +:+ dquote +:+ " to " +:+ send_to data);;
         info ← transporter_sendMail w transporter
           {| env_from := env w !! "SMTP_FROM_EMAIL";
              env_replyTo := or_else (env w !! "SMTP_REPLY_EMAIL") (env w !! "SMTP_FROM_EMAIL");
              env_to := send_to data;
              env_subject := title data;
              env_html := html;
              env_text := text data |};
         if useTestEmailService w then
           url ← nodemailer_getTestMessageUrl w info;
           log_with "Email Preview URL: %s" url
         else mret tt)
        (λ err,
           (if truthy (env w !! "SENTRY_DSN") then Sentry_captureException err else mret tt);;
           throw err)
  | None => mret tt
  end.

(** ** The dispatcher methods

    Each method builds the object literal it passes to [sendMail]
    ([*_message]) and calls [this.sendMail(...)] as a statement: the promise
    is neither awaited nor returned. *)

Definition welcome_message (opts : WelcomeOpts) : EmailSendOptions :=
  {| send_to := welcome_to opts;
     title := "Welcome to Outline";
     previewText := Some "Outline is a place for your team to build and share knowledge.";
     html := WelcomeEmail opts;
     text := welcomeEmailText opts;
     headCSS := None |}.

Definition welcome (w : World) (opts : WelcomeOpts) : Async unit :=
  detach (sendMail w (welcome_message opts)).

Definition exportSuccess_message (opts : ExportSuccessOpts) : EmailSendOptions :=
  {| send_to := exportSuccess_to opts;
     title := "Your requested export";
     previewText := Some "Here's your request data export from Outline";
     html := ExportSuccessEmail (exportSuccess_id opts) (exportSuccess_teamUrl opts);
     text := exportEmailSuccessText;
     headCSS := None |}.

Definition exportSuccess (w : World) (opts : ExportSuccessOpts) : Async unit :=
  detach (sendMail w (exportSuccess_message opts)).

Definition exportFailure_message (opts : ExportFailureOpts) : EmailSendOptions :=
  {| send_to := exportFailure_to opts;
     title := "Your requested export";
     previewText := Some "Sorry, your requested data export has failed";
     html := ExportFailureEmail (exportFailure_teamUrl opts);
     text := exportEmailFailureText;
     headCSS := None |}.

Definition exportFailure (w : World) (opts : ExportFailureOpts) : Async unit :=
  detach (sendMail w (exportFailure_message opts)).

Definition invite_message (opts : WithTo InviteEmailT) : EmailSendOptions :=
  {| send_to := to opts;
     title := actorName (props opts) +:+ " invited you to join " +:+ teamName (props opts)
              +:+ "’s knowledge base";
     previewText := Some "Outline is a place for your team to build and share knowledge.";
     html := InviteEmail opts;
     text := inviteEmailText opts;
     headCSS := None |}.

Definition invite (w : World) (opts : WithTo InviteEmailT) : Async unit :=
  detach (sendMail w (invite_message opts)).

Definition signin_message (opts : SigninOpts) : EmailSendOptions :=
  {| send_to := signin_to opts;
     title := "Magic signin link";
     previewText := Some "Here’s your link to signin to Outline.";
     html := SigninEmail opts;
     text := signinEmailText opts;
     headCSS := None |}.

Definition signin (w : World) (opts : SigninOpts) : Async unit :=
  detach (sendMail w (signin_message opts)).

Definition documentNotification_message
    (opts : WithTo DocumentNotificationEmailT) : EmailSendOptions :=
  {| send_to := to opts;
     title := "“" +:+ document_title (props opts) +:+ "” " +:+ document_eventName (props opts);
     previewText := Some (document_actor_name (props opts) +:+ " "
                          +:+ document_eventName (props opts) +:+ " a new document");
     html := DocumentNotificationEmail opts;
     text := documentNotificationEmailText opts;
     headCSS := None |}.

Definition documentNotification (w : World)
    (opts : WithTo DocumentNotificationEmailT) : Async unit :=
  detach (sendMail w (documentNotification_message opts)).

Definition collectionNotification_message
    (opts : WithTo CollectionNotificationEmailT) : EmailSendOptions :=
  {| send_to := to opts;
     title := "“" +:+ collection_name (props opts) +:+ "” " +:+ collection_eventName (props opts);
     previewText := Some (collection_actor_name (props opts) +:+ " "
                          +:+ collection_eventName (props opts) +:+ " a collection");
     html := CollectionNotificationEmail opts;
     text := collectionNotificationEmailText opts;
     headCSS := None |}.

Definition collectionNotification (w : World)
    (opts : WithTo CollectionNotificationEmailT) : Async unit :=
  detach (sendMail w (collectionNotification_message opts)).

(** ** The queued front-end *)

(** The options literal handed to [emailsQueue.add]. *)
Definition queue_options : JobOptions :=
  {| attempts := 5;
     removeOnComplete := true;
     backoff := {| backoff_type := "exponential"; backoff_delay := 60 * 1000 |} |}.

(** [type] is annotated [EmailTypes]; the annotation is erased before the code
    runs, so the parameter is whatever string the caller passes.  [opts]
    defaults to the empty object when it is [undefined]. *)
Definition sendTemplate (w : World) (type : string) (opts : option Value) : Async unit :=
  let opts := default (VObject FNil) opts in
  emailsQueue_add w {| job_type := type; job_opts := opts |} queue_options.

(** The members of the Flow type [EmailTypes]. *)
Definition EmailTypes : list string := ["welcome"; "export"; "invite"; "signin"].

(** The dispatcher methods of the class: the notification types for which a
    renderer exists. *)
Definition dispatcher_methods : list string :=
  ["welcome"; "exportSuccess"; "exportFailure"; "invite"; "signin";
   "documentNotification"; "collectionNotification"].

Definition known_type (type : string) : bool :=
  bool_decide (type ∈ dispatcher_methods).

(** ** Reading a run *)

(** The calls a run added to those already made. *)
Definition new_effects {A : Type} (m : Async A) (s : State) : list Event :=
  drop (length (effects s)) (effects (m s).2).

(** The options [sendMail] hands to [Oy.renderTemplate] and the envelope it
    hands to the transport, as functions of the message. *)
Definition render_options (data : EmailSendOptions) : RenderOpts :=
  {| render_title := title data;
     render_headCSS := join " " [Some baseStyles; headCSS data];
     render_previewText := previewText data |}.

Definition envelope (w : World) (data : EmailSendOptions) : Envelope :=
  {| env_from := env w !! "SMTP_FROM_EMAIL";
     env_replyTo := or_else (env w !! "SMTP_REPLY_EMAIL") (env w !! "SMTP_FROM_EMAIL");
     env_to := send_to data;
     env_subject := title data;
     env_html := renderTemplate_result w (html data) (render_options data);
     env_text := text data |}.

(** The calls of [sendMail] up to and including the transport's send. *)
Definition send_attempt (w : World) (data : EmailSendOptions) (t : Transport) : list Event :=
  [ERenderTemplate (html data) (render_options data);
   ELog ("Sending email " +:+ dquote +:+ title data +:+ dquote +:+ " to " +:+ send_to data) [];
   ETransportSendMail t (envelope w data)].

Definition sentry_reports (evs : list Event) : list Error :=
  omap (λ ev, match ev with ESentryCapture err => Some err | _ => None end) evs.

Definition transport_sends (evs : list Event) : list (Transport * Envelope) :=
  omap (λ ev, match ev with ETransportSendMail t e => Some (t, e) | _ => None end) evs.

Definition renders (evs : list Event) : list (ReactNode * RenderOpts) :=
  omap (λ ev, match ev with ERenderTemplate n o => Some (n, o) | _ => None end) evs.

Definition queue_adds (evs : list Event) : list (Job * JobOptions) :=
  omap (λ ev, match ev with EQueueAdd j o => Some (j, o) | _ => None end) evs.

(** A dispatcher method that calls [sendMail] on the message it builds and
    drops the promise: the method resolves and what happened is what
    [sendMail] did, while [sendMail] itself rejects when the transport
    refuses the envelope. *)
Definition fire_and_forget {O : Type}
    (method : World → O → Async unit) (message : O → EmailSendOptions) : Prop :=
  ∀ w opts s,
    method w opts s = (Resolved tt, (sendMail w (message opts) s).2) ∧
    ∀ t e,
      transporter s = Some t →
      (∀ envlp, transport_sendMail_result w t envlp = Rejected e) →
      (sendMail w (message opts) s).1 = Rejected e.

End Mailer.

(** ** Sample collaborators

    A concrete instance of the template interface and concrete worlds, on
    which the model is evaluated. *)

Module Sample.

Record InviteProps : Type := { invite_actorName : string; invite_teamName : string }.

Record NotificationProps : Type :=
  { subject_name : string; event_name : string; actor : string }.

Definition templates : EmailTemplates :=
  {| InviteEmailT := InviteProps;
     actorName := invite_actorName;
     teamName := invite_teamName;
     DocumentNotificationEmailT := NotificationProps;
     document_title := subject_name;
     document_eventName := event_name;
     document_actor_name := actor;
     CollectionNotificationEmailT := NotificationProps;
     collection_name := subject_name;
     collection_eventName := event_name;
     collection_actor_name := actor;
     welcomeEmailText := λ opts, "Welcome! " +:+ welcome_teamUrl opts;
     exportEmailSuccessText := "Your export is ready";
     exportEmailFailureText := "Your export failed";
     inviteEmailText := λ opts, "Join " +:+ invite_teamName (props opts);
     signinEmailText := λ opts, "Sign in: " +:+ signin_token opts;
     documentNotificationEmailText := λ opts, subject_name (props opts);
     collectionNotificationEmailText := λ opts, subject_name (props opts);
     baseStyles := "body { margin: 0 }" |}.

Definition refused : Error := {| message := "connect ECONNREFUSED" |}.

Definition smtp : Transport :=
  {| options := {| host := VString "smtp.example.com"; port := VString "465";
                   secure := true; auth := None; tls := None |} |}.

Definition jane_invite : WithTo (@InviteEmailT templates) :=
  {| to := "a@x.com";
     props := {| invite_actorName := "Jane"; invite_teamName := "Acme" |} |}.

Definition connected : @State templates :=
  {| transporter := Some smtp; effects := [] |}.

(** A world given by its environment and by how the test-account service, the
    transport and the queue answer. *)
Definition world (vars : gmap string string) (account : Outcome TestAccount)
    (sent : Outcome SentInfo) (queued : Outcome unit) : @World templates :=
  {| env := vars;
     createTestAccount_result := account;
     transport_sendMail_result := λ _ _, sent;
     getTestMessageUrl_result := λ info, VString ("https://ethereal.email/message/" +:+ messageId info);
     renderTemplate_result := λ _ opts, "<html>" +:+ render_title opts +:+ "</html>";
     renderTemplate_error := λ _, {| message := "a required option is missing" |};
     queue_add_result := λ _ _, queued |}.

Definition delivered : Outcome SentInfo := Resolved {| messageId := "m1" |}.

Definition account : Outcome TestAccount :=
  Resolved {| account_user := "u@ethereal.email"; account_pass := "secret" |}.

(** The transport refuses every envelope; no Sentry DSN is configured. *)
Definition unmonitored : @World templates :=
  world ∅ account (Rejected refused) (Resolved tt).

(** The transport refuses every envelope; a Sentry DSN is configured. *)
Definition monitored : @World templates :=
  world {[ "SENTRY_DSN" := "https://key@sentry.example.com/1" ]}
    account (Rejected refused) (Resolved tt).

(** A production deployment with an SMTP host and credentials. *)
Definition production : @World templates :=
  world
    (list_to_map
       [("NODE_ENV", "production"); ("SMTP_HOST", "smtp.example.com");
        ("SMTP_PORT", "465"); ("SMTP_USERNAME", "mailer");
        ("SMTP_PASSWORD", "hunter2"); ("SMTP_FROM_EMAIL", "hello@example.com")])
    account delivered (Resolved tt).

(** A development machine without mail settings, on which the test-account
    service cannot be reached. *)
Definition development_offline : @World templates :=
  world {[ "NODE_ENV" := "development" ]} (Rejected refused) delivered (Resolved tt).

(** A development machine without mail settings, on which the test account
    is created and the sandbox accepts every envelope. *)
Definition development : @World templates :=
  world {[ "NODE_ENV" := "development" ]} account delivered (Resolved tt).

(** A development machine pointed at a local SMTP server, without a username. *)
Definition development_smtp : @World templates :=
  world (list_to_map [("NODE_ENV", "development"); ("SMTP_HOST", "localhost");
                      ("SMTP_PORT", "1025")])
    account delivered (Resolved tt).

(** A production deployment without any mail settings. *)
Definition production_unconfigured : @World templates :=
  world {[ "NODE_ENV" := "production" ]} account delivered (Resolved tt).

(** The production deployment with a queue that cannot be reached. *)
Definition production_queue_down : @World templates :=
  world (env production) account delivered (Rejected {| message := "Redis is down" |}).

Definition welcome_opts : WelcomeOpts :=
  {| welcome_to := "a@x.com"; welcome_teamUrl := "https://acme.example" |}.

(** A message as a caller of [sendMail] may build it, without the optional
    preview text. *)
Definition without_preview : @EmailSendOptions templates :=
  {| send_to := "a@x.com";
     title := "Hello";
     previewText := None;
     text := "Hello";
     html := WelcomeEmail welcome_opts;
     headCSS := None |}.

End Sample.

(** ** Further readings of a run *)

Section Observations.
Context `{EmailTemplates}.

(** The configuration [loadTransport] builds from the environment when
    [SMTP_HOST] is set, and the one it builds for a test account. *)
Definition env_config (w : World) : SmtpConfig :=
  {| host := of_env (env w !! "SMTP_HOST");
     port := of_env (env w !! "SMTP_PORT");
     secure :=
       if has_key "SMTP_SECURE" (env w)
       then strict_eq (env w !! "SMTP_SECURE") "true"
       else strict_eq (env w !! "NODE_ENV") "production";
     auth :=
       if truthy (env w !! "SMTP_USERNAME")
       then Some {| user := of_env (env w !! "SMTP_USERNAME");
                    pass := of_env (env w !! "SMTP_PASSWORD") |}
       else None;
     tls :=
       if has_key "SMTP_TLS_CIPHERS" (env w)
       then Some {| ciphers := of_env (env w !! "SMTP_TLS_CIPHERS") |}
       else None |}.

Definition sandbox_config (testAccount : TestAccount) : SmtpConfig :=
  {| host := VString "smtp.ethereal.email";
     port := VNumber 587;
     secure := false;
     auth := Some {| user := VString (account_user testAccount);
                     pass := VString (account_pass testAccount) |};
     tls := None |}.

(** [loadTransport] as far as it runs before its caller gets control back:
    all of it when no [await] is reached, and on the test-account branch the
    log line and the call of [nodemailer.createTestAccount], at whose promise
    it is then suspended. *)
Definition loadTransport_until_await (w : World) : Async unit :=
  if truthy (env w !! "SMTP_HOST") then
    t ← nodemailer_createTransport (env_config w);
    set_transporter t
  else if useTestEmailService w then
    log "SMTP_USERNAME not provided, generating test account…";;
    emit ECreateTestAccount
  else mret tt.

(** The rest of [loadTransport], run once the promise of
    [createTestAccount] has settled; nothing is left when no [await] was
    reached. *)
Definition loadTransport_after_await (w : World) : Async unit :=
  if truthy (env w !! "SMTP_HOST") then mret tt
  else if useTestEmailService w then
    try_catch
      (testAccount ← await (createTestAccount_result w);
       t ← nodemailer_createTransport (sandbox_config testAccount);
       set_transporter t)
      (λ err, log ("Could not generate test account: " +:+ message err))
  else mret tt.

(** [new Mailer()] calls [this.loadTransport()] and drops its promise: the
    constructor returns when [loadTransport] reaches its first [await] or its
    end, whichever comes first. *)
Definition constructor (w : World) : Async unit :=
  detach (loadTransport_until_await w).

(** What happens to the mailer later, when the suspended [loadTransport] is
    resumed; its promise still reaches nobody. *)
Definition constructor_settled (w : World) : Async unit :=
  detach (loadTransport_after_await w).

Definition transports_created (evs : list Event) : list SmtpConfig :=
  omap (λ ev, match ev with ECreateTransport cfg => Some cfg | _ => None end) evs.

Definition test_account_requests (evs : list Event) : nat :=
  length (omap (λ ev, match ev with ECreateTestAccount => Some tt | _ => None end) evs).

Definition preview_lookups (evs : list Event) : list SentInfo :=
  omap (λ ev, match ev with EGetTestMessageUrl info => Some info | _ => None end) evs.

Definition log_lines (evs : list Event) : list (string * list Value) :=
  omap (λ ev, match ev with ELog fmt args => Some (fmt, args) | _ => None end) evs.

(** A dispatcher method that does nothing at all on a mailer without a
    transporter. *)
Definition silent_without_transporter {O : Type}
    (method : World → O → Async unit) : Prop :=
  ∀ w opts s, transporter s = None → method w opts s = (Resolved tt, s).

(** A dispatcher method that, on a mailer with a transporter, hands over
    exactly one envelope, addressed to [recipient opts] with subject
    [subject opts], after rendering once with the base stylesheet followed by
    a single space as [headCSS]. *)
Definition delivers {O : Type} (method : World → O → Async unit)
    (recipient subject : O → string) : Prop :=
  ∀ w opts s t,
    transporter s = Some t →
    (λ sent, (sent.1, env_to sent.2, env_subject sent.2)) <$>
      transport_sends (new_effects (method w opts) s) = [(t, recipient opts, subject opts)] ∧
    (λ r, (render_title r.2, render_headCSS r.2)) <$>
      renders (new_effects (method w opts) s) = [(subject opts, baseStyles +:+ " ")].

End Observations.

(** ** Properties of the delivery sender *)

Section SendMail.
Context `{EmailTemplates}.
Implicit Types (w : World) (data : EmailSendOptions) (s : State).

Lemma new_effects_app {A : Type} (m : Async A) s (evs : list Event) :
  effects (m s).2 = effects s ++ evs → new_effects m s = evs.
Proof. intros E. unfold new_effects. rewrite E. apply drop_app_length. Qed.

(** What one call of [sendMail] does when a transporter is there and the
    message has what [Oy.renderTemplate] requires: it renders, logs, hands
    the envelope to the transport, and then follows the transport's answer. *)
Lemma sendMail_connected w data s t :
  transporter s = Some t →
  Oy_accepts (render_options data) = true →
  sendMail w data s =
    match transport_sendMail_result w t (envelope w data) with
    | Resolved info =>
        (Resolved tt,
         {| transporter := Some t;
            effects := effects s ++ send_attempt w data t ++
              (if useTestEmailService w
               then [EGetTestMessageUrl info;
                     ELog "Email Preview URL: %s" [getTestMessageUrl_result w info]]
               else []) |})
    | Rejected e =>
        (Rejected e,
         {| transporter := Some t;
            effects := effects s ++ send_attempt w data t ++
              (if truthy (env w !! "SENTRY_DSN") then [ESentryCapture e] else []) |})
    end.
Proof.
  intros Ht Hok. destruct s as [tr evs]. simpl in Ht. subst tr.
  unfold sendMail, send_attempt, envelope.
  unfold mbind, mret, Async_bind, Async_ret, get_transporter, try_catch,
    Oy_renderTemplate, transporter_sendMail, nodemailer_getTestMessageUrl,
    Sentry_captureException, log, log_with, emit, await, throw.
  unfold render_options in *. cbn -[Oy_accepts] in *. rewrite Hok. simpl.
  destruct (transport_sendMail_result w t _) as [info|e]; simpl.
  - destruct (useTestEmailService w); simpl; rewrite <- ?app_assoc; reflexivity.
  - destruct (truthy (env w !! "SENTRY_DSN")); simpl; rewrite <- ?app_assoc;
      try rewrite app_nil_r; reflexivity.
Qed.

(** What it does when [Oy.renderTemplate] throws: the render call is the
    only call, and its error is what [sendMail] rejects with. *)
Lemma sendMail_refused w data s t :
  transporter s = Some t →
  Oy_accepts (render_options data) = false →
  sendMail w data s =
    (Rejected (renderTemplate_error w (render_options data)),
     {| transporter := Some t;
        effects := effects s ++ [ERenderTemplate (html data) (render_options data)] |}).
Proof.
  intros Ht Hno. destruct s as [tr evs]. simpl in Ht. subst tr.
  unfold sendMail.
  unfold mbind, mret, Async_bind, Async_ret, get_transporter, try_catch,
    Oy_renderTemplate, emit, throw.
  unfold render_options in *. cbn -[Oy_accepts] in *. by rewrite Hno.
Qed.

Lemma sendMail_rejects w data s t e :
  transporter s = Some t →
  Oy_accepts (render_options data) = true →
  transport_sendMail_result w t (envelope w data) = Rejected e →
  (sendMail w data s).1 = Rejected e.
Proof.
  intros Ht Hok Hfail. rewrite (sendMail_connected w data s t Ht Hok), Hfail. reflexivity.
Qed.

Lemma sendMail_sends w data s t :
  transporter s = Some t →
  Oy_accepts (render_options data) = true →
  transport_sends (new_effects (sendMail w data) s) = [(t, envelope w data)].
Proof.
  intros Ht Hok.
  pose proof (sendMail_connected w data s t Ht Hok) as E.
  destruct (transport_sendMail_result w t (envelope w data)) as [info|e];
    (erewrite new_effects_app; [|rewrite E; reflexivity]); unfold send_attempt.
  - by destruct (useTestEmailService w).
  - by destruct (truthy (env w !! "SENTRY_DSN")).
Qed.

(** C1. Whatever the message, when no transporter has been resolved
    [sendMail] resolves at once: it neither throws nor calls any collaborator
    (no render, no log, no network send), and leaves the mailer as it was. *)
Theorem sendMail_without_transporter w data s :
  transporter s = None →
  sendMail w data s = (Resolved tt, s) ∧ new_effects (sendMail w data) s = [].
Proof.
  intros Ht.
  assert (E : sendMail w data s = (Resolved tt, s)).
  { unfold sendMail, mbind, Async_bind, get_transporter. rewrite Ht. reflexivity. }
  split; [exact E|].
  apply new_effects_app. rewrite E. simpl. by rewrite app_nil_r.
Qed.

(** C2 (the report depends on the DSN). When the transport's send call
    raises [e], that is when the message has what [Oy.renderTemplate]
    requires, so that the call is made, and the transport refuses the envelope
    built for this message with [e]: [sendMail] rejects with that same [e];
    it reports [e] to Sentry exactly once if [SENTRY_DSN] is set to a
    non-empty value, and not at all otherwise. *)
Theorem sendMail_failure_propagated w data s t e :
  transporter s = Some t →
  Oy_accepts (render_options data) = true →
  transport_sendMail_result w t (envelope w data) = Rejected e →
  (sendMail w data s).1 = Rejected e ∧
  transport_sends (new_effects (sendMail w data) s) = [(t, envelope w data)] ∧
  sentry_reports (new_effects (sendMail w data) s) =
    (if truthy (env w !! "SENTRY_DSN") then [e] else []).
Proof.
  intros Ht Hok Hfail. split; [by apply sendMail_rejects with t|].
  split; [by apply sendMail_sends|].
  pose proof (sendMail_connected w data s t Ht Hok) as E. rewrite Hfail in E.
  erewrite new_effects_app; [|rewrite E; reflexivity].
  unfold send_attempt. by destruct (truthy (env w !! "SENTRY_DSN")).
Qed.

(** C7. Whatever the message that is sent, that is with a transporter
    resolved and a message that has what [Oy.renderTemplate] requires,
    exactly one envelope is handed to the transporter.  Its [replyTo] is
    [SMTP_REPLY_EMAIL] when that is set (to a non-empty value) and
    [SMTP_FROM_EMAIL] otherwise; [from] is [SMTP_FROM_EMAIL]; [to], [subject]
    and [text] are the message's [to], [title] and [text]; [html] is the
    message's [html] as rendered by [Oy.renderTemplate]. *)
Theorem sendMail_envelope w data s t :
  transporter s = Some t →
  Oy_accepts (render_options data) = true →
  transport_sends (new_effects (sendMail w data) s) =
    [(t, {| env_from := env w !! "SMTP_FROM_EMAIL";
            env_replyTo :=
              match env w !! "SMTP_REPLY_EMAIL" with
              | Some reply => if decide (reply = EmptyString)
                              then env w !! "SMTP_FROM_EMAIL" else Some reply
              | None => env w !! "SMTP_FROM_EMAIL"
              end;
            env_to := send_to data;
            env_subject := title data;
            env_html := renderTemplate_result w (html data) (render_options data);
            env_text := text data |})].
Proof.
  intros Ht Hok. rewrite (sendMail_sends w data s t Ht Hok). unfold envelope.
  assert (Hreply : or_else (env w !! "SMTP_REPLY_EMAIL") (env w !! "SMTP_FROM_EMAIL") =
    match env w !! "SMTP_REPLY_EMAIL" with
    | Some reply => if decide (reply = EmptyString)
                    then env w !! "SMTP_FROM_EMAIL" else Some reply
    | None => env w !! "SMTP_FROM_EMAIL"
    end).
  { unfold or_else, truthy. destruct (env w !! "SMTP_REPLY_EMAIL") as [r|]; [|done].
    case_decide as Hr; [by subst r|].
    by apply String.eqb_neq in Hr as ->. }
  by rewrite Hreply.
Qed.

(** C10. [sendMail] renders only on the branch where a transporter exists:
    with none resolved [Oy.renderTemplate] is not called at all, and with one
    resolved it is called exactly once, on the message's [html], with the
    message's title, the base stylesheet joined by a space with the message's
    [headCSS] (nothing after the space when [headCSS] is absent), and the
    message's preview text. *)
Theorem sendMail_renders_only_when_connected w data s :
  renders (new_effects (sendMail w data) s) =
    match transporter s with
    | None => []
    | Some _ =>
        [(html data,
          {| render_title := title data;
             render_headCSS := baseStyles +:+ " " +:+ default EmptyString (headCSS data);
             render_previewText := previewText data |})]
    end.
Proof.
  destruct (transporter s) as [t|] eqn:Ht.
  - destruct (Oy_accepts (render_options data)) eqn:Hok.
    + pose proof (sendMail_connected w data s t Ht Hok) as E.
      destruct (transport_sendMail_result w t (envelope w data)) as [info|e];
        (erewrite new_effects_app; [|rewrite E; reflexivity]); unfold send_attempt.
      * by destruct (useTestEmailService w).
      * by destruct (truthy (env w !! "SENTRY_DSN")).
    + erewrite new_effects_app; [|rewrite (sendMail_refused w data s t Ht Hok); reflexivity].
      reflexivity.
  - rewrite (new_effects_app _ s []); [reflexivity|].
    unfold sendMail, mbind, Async_bind, get_transporter. rewrite Ht. simpl.
    by rewrite app_nil_r.
Qed.

End SendMail.

(** ** Properties of the transport resolver *)

Section LoadTransport.
Context `{EmailTemplates}.
Implicit Types (w : World) (s : State).

Lemma truthy_Some (v : string) : truthy (Some v) = bool_decide (v ≠ EmptyString).
Proof.
  unfold truthy. case_bool_decide as Hv.
  - by apply String.eqb_neq in Hv as ->.
  - destruct (String.eqb_spec v EmptyString) as [_|Hne]; [done|]. by destruct Hv.
Qed.

Lemma truthy_spec (v : option string) :
  truthy v = true ↔ ∃ u, v = Some u ∧ u ≠ EmptyString.
Proof.
  destruct v as [u|].
  - rewrite truthy_Some, bool_decide_eq_true. split; [by eauto|]. by intros (? & [= <-] & ?).
  - split; [done|]. by intros (? & ? & _).
Qed.

Lemma strict_eq_decide (v : option string) (lit : string) :
  strict_eq v lit = bool_decide (v = Some lit).
Proof.
  destruct v as [x|]; simpl; [|done].
  destruct (String.eqb_spec x lit) as [->|Hne].
  - by rewrite bool_decide_eq_true_2.
  - rewrite bool_decide_eq_false_2; [done|]. by intros [= ->].
Qed.

(** C6. With [SMTP_HOST] set (non-empty), [loadTransport] creates one
    transport, stores it, and resolves.  In its configuration: [host] and
    [port] are [SMTP_HOST] and [SMTP_PORT]; [secure] is [SMTP_SECURE === "true"]
    when [SMTP_SECURE] is present and otherwise is true exactly when
    [NODE_ENV] is ["production"]; [auth] is there, holding [SMTP_USERNAME]
    and [SMTP_PASSWORD], if and only if [SMTP_USERNAME] is set (non-empty);
    [tls] is there, holding the ciphers, only when [SMTP_TLS_CIPHERS] is
    present. *)
Theorem loadTransport_smtp_host w s (smtp_host : string) :
  env w !! "SMTP_HOST" = Some smtp_host →
  smtp_host ≠ EmptyString →
  ∃ cfg,
    loadTransport w s =
      (Resolved tt,
       {| transporter := Some {| options := cfg |};
          effects := effects s ++ [ECreateTransport cfg] |}) ∧
    host cfg = VString smtp_host ∧
    port cfg = of_env (env w !! "SMTP_PORT") ∧
    secure cfg =
      match env w !! "SMTP_SECURE" with
      | Some override => bool_decide (override = "true")
      | None => bool_decide (env w !! "NODE_ENV" = Some "production")
      end ∧
    (is_Some (auth cfg) ↔
       ∃ username, env w !! "SMTP_USERNAME" = Some username ∧ username ≠ EmptyString) ∧
    (∀ a, auth cfg = Some a →
       user a = of_env (env w !! "SMTP_USERNAME") ∧
       pass a = of_env (env w !! "SMTP_PASSWORD")) ∧
    tls cfg = (λ c, {| ciphers := VString c |}) <$> env w !! "SMTP_TLS_CIPHERS".
Proof.
  intros Hhost Hne.
  unfold loadTransport. rewrite Hhost, truthy_Some, bool_decide_eq_true_2 by done.
  eexists. split; [reflexivity|]. simpl.
  assert (Hsecure :
    (if has_key "SMTP_SECURE" (env w)
     then strict_eq (env w !! "SMTP_SECURE") "true"
     else strict_eq (env w !! "NODE_ENV") "production") =
    match env w !! "SMTP_SECURE" with
    | Some override => bool_decide (override = "true")
    | None => bool_decide (env w !! "NODE_ENV" = Some "production")
    end).
  { unfold has_key. destruct (env w !! "SMTP_SECURE") as [v|] eqn:Hs.
    - rewrite bool_decide_eq_true_2 by eauto. rewrite strict_eq_decide.
      apply bool_decide_ext. split; [by intros [= ->]|by intros ->].
    - rewrite bool_decide_eq_false_2 by (by intros [? ?]). apply strict_eq_decide. }
  assert (Htls :
    (if has_key "SMTP_TLS_CIPHERS" (env w)
     then Some {| ciphers := of_env (env w !! "SMTP_TLS_CIPHERS") |}
     else None) =
    (λ c, {| ciphers := VString c |}) <$> env w !! "SMTP_TLS_CIPHERS").
  { unfold has_key. by destruct (env w !! "SMTP_TLS_CIPHERS") as [c|]. }
  destruct (truthy (env w !! "SMTP_USERNAME")) eqn:Huser; simpl;
    (split; [reflexivity|]); (split; [reflexivity|]); (split; [exact Hsecure|]);
    (split; [|split; [|exact Htls]]).
  - split; [intros _; by apply truthy_spec|by eauto].
  - by intros a [= <-].
  - split; [by intros [? ?]|]. intros Hset. apply truthy_spec in Hset. congruence.
  - by intros a.
Qed.

(** C8. In development, with no [SMTP_HOST] and no [SMTP_USERNAME], when
    creating the test account fails with [e]: [loadTransport] logs the
    failure with the message of [e] and resolves; the transporter is not
    touched, so on a mailer whose transporter was unset every later
    [sendMail] resolves without doing anything. *)
Theorem loadTransport_sandbox_failure w s e :
  truthy (env w !! "SMTP_HOST") = false →
  env w !! "NODE_ENV" = Some "development" →
  truthy (env w !! "SMTP_USERNAME") = false →
  createTestAccount_result w = Rejected e →
  loadTransport w s =
    (Resolved tt,
     {| transporter := transporter s;
        effects := effects s ++
          [ELog "SMTP_USERNAME not provided, generating test account…" [];
           ECreateTestAccount;
           ELog ("Could not generate test account: " +:+ message e) []] |}) ∧
  (transporter s = None →
   transporter (loadTransport w s).2 = None ∧
   ∀ data, sendMail w data (loadTransport w s).2 = (Resolved tt, (loadTransport w s).2)).
Proof.
  intros Hhost Hdev Huser Hfail.
  assert (E : loadTransport w s =
    (Resolved tt,
     {| transporter := transporter s;
        effects := effects s ++
          [ELog "SMTP_USERNAME not provided, generating test account…" [];
           ECreateTestAccount;
           ELog ("Could not generate test account: " +:+ message e) []] |})).
  { unfold loadTransport, useTestEmailService. rewrite Hhost, Hdev, Huser. simpl.
    unfold mbind, Async_bind, try_catch, nodemailer_createTestAccount, log, emit, await.
    simpl. unfold mbind, Async_bind. simpl. rewrite Hfail. simpl.
    by rewrite <- !app_assoc. }
  split; [exact E|].
  intros Hunset. rewrite E. simpl. split; [exact Hunset|].
  intros data. unfold sendMail, mbind, Async_bind, get_transporter. simpl.
  by rewrite Hunset.
Qed.

End LoadTransport.

(** ** Properties of the queued front-end *)

Section SendTemplate.
Context `{EmailTemplates}.
Implicit Types (w : World) (s : State).

(** One call of [sendTemplate]: a single [emailsQueue.add], whose answer is
    the answer of [sendTemplate]. *)
Lemma sendTemplate_run w (type : string) (opts : option Value) s :
  sendTemplate w type opts s =
    let job := {| job_type := type; job_opts := default (VObject FNil) opts |} in
    (queue_add_result w job queue_options,
     {| transporter := transporter s;
        effects := effects s ++ [EQueueAdd job queue_options] |}).
Proof. reflexivity. Qed.

(** C3. Whatever the type and the options, [sendTemplate] puts the request
    [{type, opts}] on the queue, once, with at most 5 attempts, removal of
    the job on completion, and exponential backoff from a delay of 60000
    milliseconds, that is 60 seconds. *)
Theorem sendTemplate_retry_policy w (type : string) (opts : option Value) s :
  new_effects (sendTemplate w type opts) s =
    [EQueueAdd
       {| job_type := type; job_opts := default (VObject FNil) opts |}
       {| attempts := 5;
          removeOnComplete := true;
          backoff := {| backoff_type := "exponential"; backoff_delay := 60000 |} |}].
Proof. apply new_effects_app. by rewrite sendTemplate_run. Qed.

(** C5. The type ["export"] is a member of the Flow type [EmailTypes]
    and names no dispatcher method; [sendTemplate] does not fail on it: the
    request is put on the queue with the retry options of every request and
    [sendTemplate] settles as the queue's [add] does. *)
Theorem sendTemplate_export_enqueued w (opts : option Value) s :
  "export" ∈ EmailTypes ∧
  known_type "export" = false ∧
  new_effects (sendTemplate w "export" opts) s =
    [EQueueAdd {| job_type := "export"; job_opts := default (VObject FNil) opts |}
       queue_options] ∧
  (sendTemplate w "export" opts s).1 =
    queue_add_result w {| job_type := "export"; job_opts := default (VObject FNil) opts |}
      queue_options.
Proof.
  split; [unfold EmailTypes; set_solver|]. split; [reflexivity|].
  split; [|by rewrite sendTemplate_run].
  apply new_effects_app. by rewrite sendTemplate_run.
Qed.

End SendTemplate.

(** ** Properties of the dispatcher methods *)

Section Dispatch.
Context `{EmailTemplates}.
Implicit Types (w : World) (s : State).

Lemma truthy_append (a b : string) :
  truthy (Some b) = true → truthy (Some (a +:+ b)) = true.
Proof. by destruct a. Qed.

(** The messages of the dispatcher methods all carry a title and a preview
    text that are not empty, so [Oy.renderTemplate] accepts them. *)
Lemma welcome_accepted (opts : WelcomeOpts) :
  Oy_accepts (render_options (welcome_message opts)) = true.
Proof. reflexivity. Qed.

Lemma exportSuccess_accepted (opts : ExportSuccessOpts) :
  Oy_accepts (render_options (exportSuccess_message opts)) = true.
Proof. reflexivity. Qed.

Lemma exportFailure_accepted (opts : ExportFailureOpts) :
  Oy_accepts (render_options (exportFailure_message opts)) = true.
Proof. reflexivity. Qed.

Lemma invite_accepted (opts : WithTo InviteEmailT) :
  Oy_accepts (render_options (invite_message opts)) = true.
Proof.
  unfold Oy_accepts, render_options, invite_message. cbn -[truthy].
  apply andb_true_iff. split; first [reflexivity | by apply truthy_append].
Qed.

Lemma signin_accepted (opts : SigninOpts) :
  Oy_accepts (render_options (signin_message opts)) = true.
Proof. reflexivity. Qed.

Lemma documentNotification_accepted (opts : WithTo DocumentNotificationEmailT) :
  Oy_accepts (render_options (documentNotification_message opts)) = true.
Proof.
  unfold Oy_accepts, render_options, documentNotification_message. cbn -[truthy].
  apply andb_true_iff. split; first [reflexivity | by apply truthy_append].
Qed.

Lemma collectionNotification_accepted (opts : WithTo CollectionNotificationEmailT) :
  Oy_accepts (render_options (collectionNotification_message opts)) = true.
Proof.
  unfold Oy_accepts, render_options, collectionNotification_message. cbn -[truthy].
  apply andb_true_iff. split; first [reflexivity | by apply truthy_append].
Qed.

(** The apostrophe of the invitation's subject is U+2019, the right single
    quotation mark, not the ASCII apostrophe. *)
Remark right_single_quotation_mark :
  "’" = String "226" (String "128" (String "153" EmptyString)) ∧
  "'" = String "039" EmptyString.
Proof. by split. Qed.

(** C4 (typographic apostrophe). The invite dispatcher with [actorName] "Jane" and
    [teamName] "Acme" builds a message whose subject is
    "Jane invited you to join Acme’s knowledge base", the apostrophe being
    U+2019; with a transporter resolved, that is the subject of the envelope
    handed to it. *)
Theorem invite_subject w (opts : WithTo InviteEmailT) s :
  actorName (props opts) = "Jane" →
  teamName (props opts) = "Acme" →
  title (invite_message opts) = "Jane invited you to join Acme’s knowledge base" ∧
  (is_Some (transporter s) →
   (λ sent, env_subject sent.2) <$> transport_sends (new_effects (invite w opts) s) =
     ["Jane invited you to join Acme’s knowledge base"]).
Proof.
  intros Hactor Hteam.
  assert (Htitle :
    title (invite_message opts) = "Jane invited you to join Acme’s knowledge base").
  { simpl. by rewrite Hactor, Hteam. }
  split; [exact Htitle|].
  intros [t Ht].
  pose proof (sendMail_sends w (invite_message opts) s t Ht (invite_accepted opts))
    as Hsent.
  unfold new_effects, invite, detach in *. cbn [snd] in *.
  rewrite Hsent. cbn [fmap list_fmap snd env_subject envelope]. by rewrite Htitle.
Qed.

(** C9. Each of the seven dispatcher methods calls [sendMail] on the
    message it builds and drops the promise: the method resolves whatever
    [sendMail] does, also when [sendMail] rejects because the delivery
    failed. *)
Theorem dispatchers_fire_and_forget :
  fire_and_forget welcome welcome_message ∧
  fire_and_forget exportSuccess exportSuccess_message ∧
  fire_and_forget exportFailure exportFailure_message ∧
  fire_and_forget invite invite_message ∧
  fire_and_forget signin signin_message ∧
  fire_and_forget documentNotification documentNotification_message ∧
  fire_and_forget collectionNotification collectionNotification_message.
Proof.
  repeat split; intros t e Ht Hfail; apply sendMail_rejects with t;
    first [ exact Ht | apply Hfail
          | apply welcome_accepted | apply exportSuccess_accepted
          | apply exportFailure_accepted | apply invite_accepted
          | apply signin_accepted | apply documentNotification_accepted
          | apply collectionNotification_accepted ].
Qed.

End Dispatch.

(** ** Scenarios

    The theorems above at the sample collaborators, and the inputs at which
    the code departs from the wording of the specification. *)

Section Scenarios.
#[local] Existing Instance Sample.templates.

(** Without a transporter, the invitation of the scenario is not sent. *)
Lemma sendMail_without_transporter_witness :
  transporter new_Mailer = None ∧
  (sendMail Sample.unmonitored (invite_message Sample.jane_invite) new_Mailer
     = (Resolved tt, new_Mailer) ∧
   new_effects (sendMail Sample.unmonitored (invite_message Sample.jane_invite)) new_Mailer
     = []).
Proof.
  split; [reflexivity|].
  apply (sendMail_without_transporter
           Sample.unmonitored (invite_message Sample.jane_invite) new_Mailer).
  reflexivity.
Defined.

(** With a Sentry DSN, the refused delivery is reported once and rejected. *)
Lemma sendMail_failure_propagated_witness :
  transporter Sample.connected = Some Sample.smtp ∧
  Oy_accepts (render_options (invite_message Sample.jane_invite)) = true ∧
  transport_sendMail_result Sample.monitored Sample.smtp
    (envelope Sample.monitored (invite_message Sample.jane_invite))
    = Rejected Sample.refused ∧
  (sendMail Sample.monitored (invite_message Sample.jane_invite) Sample.connected).1
    = Rejected Sample.refused ∧
  transport_sends
    (new_effects (sendMail Sample.monitored (invite_message Sample.jane_invite))
       Sample.connected)
    = [(Sample.smtp, envelope Sample.monitored (invite_message Sample.jane_invite))] ∧
  sentry_reports
    (new_effects (sendMail Sample.monitored (invite_message Sample.jane_invite))
       Sample.connected)
    = (if truthy (env Sample.monitored !! "SENTRY_DSN") then [Sample.refused] else []).
Proof.
  split; [reflexivity|]. split; [reflexivity|]. split; [reflexivity|].
  apply (sendMail_failure_propagated
           Sample.monitored (invite_message Sample.jane_invite)
           Sample.connected Sample.smtp Sample.refused); reflexivity.
Defined.

(** In that world the report is made: exactly one. *)
Example sendMail_failure_reported_once :
  sentry_reports
    (new_effects (sendMail Sample.monitored (invite_message Sample.jane_invite))
       Sample.connected)
    = [Sample.refused].
Proof. vm_compute. reflexivity. Qed.

(** Without a Sentry DSN the transport's failure still rejects [sendMail],
    and nothing is reported: the number of reports is 0, not 1. *)
Lemma sendMail_failure_unreported_without_dsn :
  transporter Sample.connected = Some Sample.smtp ∧
  (∀ envlp, transport_sendMail_result Sample.unmonitored Sample.smtp envlp
            = Rejected Sample.refused) ∧
  (sendMail Sample.unmonitored (invite_message Sample.jane_invite) Sample.connected).1
    = Rejected Sample.refused ∧
  length (sentry_reports
            (new_effects (sendMail Sample.unmonitored (invite_message Sample.jane_invite))
               Sample.connected)) ≠ 1%nat.
Proof.
  split; [reflexivity|]. split; [intros envlp; reflexivity|].
  split; [reflexivity|]. vm_compute. discriminate.
Qed.

(** The subject built for Jane and Acme is not the string with the ASCII
    apostrophe. *)
Lemma invite_subject_not_ascii :
  title (invite_message Sample.jane_invite)
    ≠ "Jane invited you to join Acme's knowledge base".
Proof. vm_compute. discriminate. Qed.

Lemma invite_subject_witness :
  actorName (props Sample.jane_invite) = "Jane" ∧
  teamName (props Sample.jane_invite) = "Acme" ∧
  title (invite_message Sample.jane_invite)
    = "Jane invited you to join Acme’s knowledge base" ∧
  (is_Some (transporter Sample.connected) →
   (λ sent, env_subject sent.2) <$>
     transport_sends (new_effects (invite Sample.production Sample.jane_invite)
                        Sample.connected)
     = ["Jane invited you to join Acme’s knowledge base"]).
Proof.
  split; [reflexivity|]. split; [reflexivity|].
  apply (invite_subject Sample.production Sample.jane_invite Sample.connected);
    reflexivity.
Defined.

(** A type outside [EmailTypes] is accepted at run time as well and lands
    on the queue; the call resolves. *)
Example sendTemplate_enqueues_unknown_type :
  known_type "bogus" = false ∧
  sendTemplate Sample.production "bogus" None new_Mailer =
    (Resolved tt,
     {| transporter := None;
        effects := [EQueueAdd {| job_type := "bogus"; job_opts := VObject FNil |}
                      queue_options] |}).
Proof. split; reflexivity. Qed.

(** In the production deployment the request of type ["export"] is on the
    queue after the call. *)
Example sendTemplate_export :
  "export" ∈ EmailTypes ∧ known_type "export" = false ∧
  queue_adds (new_effects (sendTemplate Sample.production "export" None) new_Mailer)
    = [({| job_type := "export"; job_opts := VObject FNil |}, queue_options)].
Proof. split; [set_solver|]. split; reflexivity. Qed.

(** The production deployment: a secure transport with credentials and no
    cipher override. *)
Lemma loadTransport_smtp_host_witness :
  env Sample.production !! "SMTP_HOST" = Some "smtp.example.com" ∧
  "smtp.example.com" ≠ EmptyString ∧
  ∃ cfg,
    loadTransport Sample.production new_Mailer =
      (Resolved tt,
       {| transporter := Some {| options := cfg |};
          effects := effects new_Mailer ++ [ECreateTransport cfg] |}) ∧
    host cfg = VString "smtp.example.com" ∧
    port cfg = of_env (env Sample.production !! "SMTP_PORT") ∧
    secure cfg =
      match env Sample.production !! "SMTP_SECURE" with
      | Some override => bool_decide (override = "true")
      | None => bool_decide (env Sample.production !! "NODE_ENV" = Some "production")
      end ∧
    (is_Some (auth cfg) ↔
       ∃ username, env Sample.production !! "SMTP_USERNAME" = Some username
                   ∧ username ≠ EmptyString) ∧
    (∀ a, auth cfg = Some a →
       user a = of_env (env Sample.production !! "SMTP_USERNAME") ∧
       pass a = of_env (env Sample.production !! "SMTP_PASSWORD")) ∧
    tls cfg = (λ c, {| ciphers := VString c |}) <$> env Sample.production !! "SMTP_TLS_CIPHERS".
Proof.
  split; [vm_compute; reflexivity|]. split; [discriminate|].
  apply (loadTransport_smtp_host Sample.production new_Mailer "smtp.example.com").
  - vm_compute. reflexivity.
  - discriminate.
Defined.

(** The configuration built in the production deployment, evaluated. *)
Example loadTransport_production :
  loadTransport Sample.production new_Mailer =
    (Resolved tt,
     {| transporter :=
          Some {| options :=
                    {| host := VString "smtp.example.com"; port := VString "465";
                       secure := true;
                       auth := Some {| user := VString "mailer"; pass := VString "hunter2" |};
                       tls := None |} |};
        effects :=
          [ECreateTransport
             {| host := VString "smtp.example.com"; port := VString "465";
                secure := true;
                auth := Some {| user := VString "mailer"; pass := VString "hunter2" |};
                tls := None |}] |}).
Proof. vm_compute. reflexivity. Qed.

(** In the production deployment no reply address is set: replies go to the
    from-address. *)
Lemma sendMail_envelope_witness :
  transporter Sample.connected = Some Sample.smtp ∧
  Oy_accepts (render_options (invite_message Sample.jane_invite)) = true ∧
  transport_sends
    (new_effects (sendMail Sample.production (invite_message Sample.jane_invite))
       Sample.connected) =
    [(Sample.smtp,
      {| env_from := env Sample.production !! "SMTP_FROM_EMAIL";
         env_replyTo :=
           match env Sample.production !! "SMTP_REPLY_EMAIL" with
           | Some reply => if decide (reply = EmptyString)
                           then env Sample.production !! "SMTP_FROM_EMAIL" else Some reply
           | None => env Sample.production !! "SMTP_FROM_EMAIL"
           end;
         env_to := send_to (invite_message Sample.jane_invite);
         env_subject := title (invite_message Sample.jane_invite);
         env_html :=
           renderTemplate_result Sample.production
             (html (invite_message Sample.jane_invite))
             (render_options (invite_message Sample.jane_invite));
         env_text := text (invite_message Sample.jane_invite) |})].
Proof.
  split; [reflexivity|]. split; [reflexivity|].
  apply (sendMail_envelope Sample.production (invite_message Sample.jane_invite)
           Sample.connected Sample.smtp); reflexivity.
Defined.

Example sendMail_envelope_production :
  transport_sends
    (new_effects (sendMail Sample.production (invite_message Sample.jane_invite))
       Sample.connected) =
    [(Sample.smtp,
      {| env_from := Some "hello@example.com";
         env_replyTo := Some "hello@example.com";
         env_to := "a@x.com";
         env_subject := "Jane invited you to join Acme’s knowledge base";
         env_html := "<html>Jane invited you to join Acme’s knowledge base</html>";
         env_text := "Join Acme" |})].
Proof. vm_compute. reflexivity. Qed.

(** The development machine whose test account cannot be created: the
    failure is logged, nothing is raised, later sends do nothing. *)
Lemma loadTransport_sandbox_failure_witness :
  truthy (env Sample.development_offline !! "SMTP_HOST") = false ∧
  env Sample.development_offline !! "NODE_ENV" = Some "development" ∧
  truthy (env Sample.development_offline !! "SMTP_USERNAME") = false ∧
  createTestAccount_result Sample.development_offline = Rejected Sample.refused ∧
  loadTransport Sample.development_offline new_Mailer =
    (Resolved tt,
     {| transporter := transporter new_Mailer;
        effects := effects new_Mailer ++
          [ELog "SMTP_USERNAME not provided, generating test account…" [];
           ECreateTestAccount;
           ELog ("Could not generate test account: " +:+ message Sample.refused) []] |}) ∧
  (transporter new_Mailer = None →
   transporter (loadTransport Sample.development_offline new_Mailer).2 = None ∧
   ∀ data,
     sendMail Sample.development_offline data
       (loadTransport Sample.development_offline new_Mailer).2
     = (Resolved tt, (loadTransport Sample.development_offline new_Mailer).2)).
Proof.
  split; [vm_compute; reflexivity|]. split; [vm_compute; reflexivity|].
  split; [vm_compute; reflexivity|]. split; [reflexivity|].
  apply (loadTransport_sandbox_failure Sample.development_offline new_Mailer Sample.refused).
  - vm_compute. reflexivity.
  - vm_compute. reflexivity.
  - vm_compute. reflexivity.
  - reflexivity.
Defined.

(** A refused delivery rejects [sendMail] and leaves [invite] resolved. *)
Example invite_resolves_on_failure :
  (sendMail Sample.monitored (invite_message Sample.jane_invite) Sample.connected).1
    = Rejected Sample.refused ∧
  (invite Sample.monitored Sample.jane_invite Sample.connected).1 = Resolved tt.
Proof. split; reflexivity. Qed.

End Scenarios.

(** ** The transport resolver, branch by branch *)

Section Resolver.
Context `{EmailTemplates}.
Implicit Types (w : World) (s : State).

(** One call of [loadTransport], in full. *)
Lemma loadTransport_run w s :
  loadTransport w s =
    if truthy (env w !! "SMTP_HOST") then
      (Resolved tt,
       {| transporter := Some {| options := env_config w |};
          effects := effects s ++ [ECreateTransport (env_config w)] |})
    else if useTestEmailService w then
      match createTestAccount_result w with
      | Resolved testAccount =>
          (Resolved tt,
           {| transporter := Some {| options := sandbox_config testAccount |};
              effects := effects s ++
                [ELog "SMTP_USERNAME not provided, generating test account…" [];
                 ECreateTestAccount;
                 ECreateTransport (sandbox_config testAccount)] |})
      | Rejected e =>
          (Resolved tt,
           {| transporter := transporter s;
              effects := effects s ++
                [ELog "SMTP_USERNAME not provided, generating test account…" [];
                 ECreateTestAccount;
                 ELog ("Could not generate test account: " +:+ message e) []] |})
      end
    else (Resolved tt, s).
Proof.
  unfold loadTransport, env_config, sandbox_config.
  destruct (truthy (env w !! "SMTP_HOST")).
  - by destruct (truthy (env w !! "SMTP_USERNAME")).
  - destruct (useTestEmailService w); [|done].
    unfold mbind, Async_bind, try_catch, nodemailer_createTestAccount,
      nodemailer_createTransport, set_transporter, log, emit, await; simpl.
    unfold mbind, Async_bind; simpl.
    destruct (createTestAccount_result w) as [testAccount|e]; simpl;
      by rewrite <- !app_assoc.
Qed.

Lemma useTestEmailService_spec w :
  useTestEmailService w = true ↔
  env w !! "NODE_ENV" = Some "development" ∧ truthy (env w !! "SMTP_USERNAME") = false.
Proof.
  unfold useTestEmailService.
  rewrite andb_true_iff, negb_true_iff, strict_eq_decide, bool_decide_eq_true. done.
Qed.

(** X1. [loadTransport] never rejects, whatever the environment and
    whatever the test-account service answers. *)
Theorem loadTransport_never_rejects w s :
  (loadTransport w s).1 = Resolved tt.
Proof.
  rewrite loadTransport_run.
  destruct (truthy (env w !! "SMTP_HOST")); [done|].
  destruct (useTestEmailService w); [|done].
  by destruct (createTestAccount_result w).
Qed.

(** X2. In development, with no [SMTP_HOST] and no [SMTP_USERNAME], when
    the test account is created: [loadTransport] logs, asks for the account,
    and stores a transport for [smtp.ethereal.email], port 587, not secure,
    authenticated with the account's user and password, without TLS options. *)
Theorem loadTransport_sandbox w s (testAccount : TestAccount) :
  truthy (env w !! "SMTP_HOST") = false →
  env w !! "NODE_ENV" = Some "development" →
  truthy (env w !! "SMTP_USERNAME") = false →
  createTestAccount_result w = Resolved testAccount →
  loadTransport w s =
    (Resolved tt,
     {| transporter :=
          Some {| options :=
                    {| host := VString "smtp.ethereal.email";
                       port := VNumber 587;
                       secure := false;
                       auth := Some {| user := VString (account_user testAccount);
                                       pass := VString (account_pass testAccount) |};
                       tls := None |} |};
        effects := effects s ++
          [ELog "SMTP_USERNAME not provided, generating test account…" [];
           ECreateTestAccount;
           ECreateTransport
             {| host := VString "smtp.ethereal.email";
                port := VNumber 587;
                secure := false;
                auth := Some {| user := VString (account_user testAccount);
                                pass := VString (account_pass testAccount) |};
                tls := None |}] |}).
Proof.
  intros Hhost Hdev Huser Hacct. rewrite loadTransport_run, Hhost, Hacct.
  by rewrite (proj2 (useTestEmailService_spec w)).
Qed.

(** X3. With no [SMTP_HOST], outside development or with an
    [SMTP_USERNAME] set, [loadTransport] does nothing: no log, no call, the
    transporter as it was. *)
Theorem loadTransport_disabled w s :
  truthy (env w !! "SMTP_HOST") = false →
  env w !! "NODE_ENV" ≠ Some "development" ∨ truthy (env w !! "SMTP_USERNAME") = true →
  loadTransport w s = (Resolved tt, s).
Proof.
  intros Hhost Hoff. rewrite loadTransport_run, Hhost.
  destruct (useTestEmailService w) eqn:Htest; [|done].
  apply useTestEmailService_spec in Htest as [Hdev Huser].
  destruct Hoff as [Hne|Hset]; [by destruct Hne|congruence].
Qed.

(** X4. One call of [loadTransport] asks for a test account at most once,
    and does so exactly when [SMTP_HOST] is unset or empty, [NODE_ENV] is
    ["development"] and [SMTP_USERNAME] is unset or empty. *)
Theorem loadTransport_test_account_requests w s :
  test_account_requests (new_effects (loadTransport w) s) =
    if negb (truthy (env w !! "SMTP_HOST"))
       && bool_decide (env w !! "NODE_ENV" = Some "development")
       && negb (truthy (env w !! "SMTP_USERNAME"))
    then 1%nat else 0%nat.
Proof.
  assert (Htest : useTestEmailService w =
    bool_decide (env w !! "NODE_ENV" = Some "development")
    && negb (truthy (env w !! "SMTP_USERNAME"))).
  { unfold useTestEmailService. by rewrite strict_eq_decide. }
  pose proof (loadTransport_run w s) as E.
  destruct (truthy (env w !! "SMTP_HOST")); simpl.
  { by rewrite (new_effects_app _ s _ (f_equal (λ r, effects r.2) E)). }
  rewrite <- Htest.
  destruct (useTestEmailService w).
  - destruct (createTestAccount_result w);
      by rewrite (new_effects_app _ s _ (f_equal (λ r, effects r.2) E)).
  - rewrite (new_effects_app _ s []); [done|]. rewrite E. simpl. by rewrite app_nil_r.
Qed.

(** X5. [loadTransport] stores a transporter exactly when it creates one:
    it calls [nodemailer.createTransport] at most once; if it does, the
    transporter afterwards is the transport created from that configuration,
    and if it does not, the transporter is the one from before. *)
Theorem loadTransport_stores_what_it_creates w s :
  match transports_created (new_effects (loadTransport w) s) with
  | [] => transporter (loadTransport w s).2 = transporter s
  | [cfg] => transporter (loadTransport w s).2 = Some {| options := cfg |}
  | _ => False
  end.
Proof.
  pose proof (loadTransport_run w s) as E.
  destruct (truthy (env w !! "SMTP_HOST")).
  { rewrite (new_effects_app _ s _ (f_equal (λ r, effects r.2) E)). by rewrite E. }
  destruct (useTestEmailService w).
  - destruct (createTestAccount_result w);
      rewrite (new_effects_app _ s _ (f_equal (λ r, effects r.2) E)); by rewrite E.
  - rewrite (new_effects_app _ s []); [by rewrite E|]. rewrite E. simpl. by rewrite app_nil_r.
Qed.

(** One call of [loadTransport] up to its first [await], and its rest. *)
Lemma loadTransport_until_await_run w s :
  loadTransport_until_await w s =
    if truthy (env w !! "SMTP_HOST") then
      (Resolved tt,
       {| transporter := Some {| options := env_config w |};
          effects := effects s ++ [ECreateTransport (env_config w)] |})
    else if useTestEmailService w then
      (Resolved tt,
       {| transporter := transporter s;
          effects := effects s ++
            [ELog "SMTP_USERNAME not provided, generating test account…" [];
             ECreateTestAccount] |})
    else (Resolved tt, s).
Proof.
  unfold loadTransport_until_await.
  destruct (truthy (env w !! "SMTP_HOST")); [done|].
  destruct (useTestEmailService w); [|done].
  unfold mbind, Async_bind, log, emit; simpl. by rewrite <- !app_assoc.
Qed.

Lemma loadTransport_after_await_run w s :
  loadTransport_after_await w s =
    if truthy (env w !! "SMTP_HOST") then (Resolved tt, s)
    else if useTestEmailService w then
      match createTestAccount_result w with
      | Resolved testAccount =>
          (Resolved tt,
           {| transporter := Some {| options := sandbox_config testAccount |};
              effects := effects s ++ [ECreateTransport (sandbox_config testAccount)] |})
      | Rejected e =>
          (Resolved tt,
           {| transporter := transporter s;
              effects := effects s ++
                [ELog ("Could not generate test account: " +:+ message e) []] |})
      end
    else (Resolved tt, s).
Proof.
  unfold loadTransport_after_await.
  destruct (truthy (env w !! "SMTP_HOST")); [done|].
  destruct (useTestEmailService w); [|done].
  unfold mbind, Async_bind, try_catch, await, nodemailer_createTransport,
    set_transporter, log, emit; simpl.
  unfold mbind, Async_bind; simpl.
  by destruct (createTestAccount_result w).
Qed.

(** Run to its end, [loadTransport] is its part before the [await] followed
    by its part after. *)
Lemma loadTransport_split w s :
  loadTransport w s = (loadTransport_until_await w;; loadTransport_after_await w) s.
Proof.
  rewrite loadTransport_run. unfold mbind, Async_bind.
  rewrite loadTransport_until_await_run.
  destruct (truthy (env w !! "SMTP_HOST")) eqn:Hhost.
  { by rewrite loadTransport_after_await_run, Hhost. }
  destruct (useTestEmailService w) eqn:Htest.
  - rewrite loadTransport_after_await_run, Hhost, Htest.
    destruct (createTestAccount_result w); simpl; by rewrite <- !app_assoc.
  - by rewrite loadTransport_after_await_run, Hhost, Htest.
Qed.

(** X6. When [new Mailer()] returns, the mailer has a transporter exactly
    when [SMTP_HOST] is set (non-empty): on the test-account branch the
    constructor returns while [createTestAccount] is pending, with the
    transporter still unset.  Once the suspended [loadTransport] has been
    resumed the mailer is as after a whole run of [loadTransport], and it is
    without a transporter exactly when [SMTP_HOST] is unset or empty and
    either the test-account service is not to be used or creating the account
    failed. *)
Theorem constructor_transporter w :
  (transporter (constructor w new_Mailer).2 = None ↔
   truthy (env w !! "SMTP_HOST") = false) ∧
  (constructor_settled w (constructor w new_Mailer).2).2 = (loadTransport w new_Mailer).2 ∧
  (transporter (constructor_settled w (constructor w new_Mailer).2).2 = None ↔
   truthy (env w !! "SMTP_HOST") = false ∧
   (useTestEmailService w = false ∨ ∃ e, createTestAccount_result w = Rejected e)).
Proof.
  assert (Hall : (constructor_settled w (constructor w new_Mailer).2).2
                 = (loadTransport w new_Mailer).2).
  { rewrite loadTransport_split. unfold constructor_settled, constructor, detach.
    unfold mbind, Async_bind. cbn [snd].
    pose proof (loadTransport_until_await_run w new_Mailer) as E.
    destruct (loadTransport_until_await w new_Mailer) as [[[]|e] s1]; [done|].
    by destruct (truthy (env w !! "SMTP_HOST")), (useTestEmailService w). }
  split; [|split; [exact Hall|]].
  - unfold constructor, detach. cbn [snd]. rewrite loadTransport_until_await_run.
    destruct (truthy (env w !! "SMTP_HOST")); [done|].
    by destruct (useTestEmailService w).
  - rewrite Hall, loadTransport_run.
    destruct (truthy (env w !! "SMTP_HOST")); simpl.
    { split; [done|]. by intros [? _]. }
    destruct (useTestEmailService w); simpl.
    + destruct (createTestAccount_result w) as [acct|e]; simpl.
      * split; [done|]. intros [_ [?|[e ?]]]; done.
      * split; [|done]. intros _. split; [done|]. right. by exists e.
    + split; [|done]. intros _. split; [done|]. by left.
Qed.

End Resolver.

(** ** The delivery sender, on success and in what it leaves alone *)

Section Sender.
Context `{EmailTemplates}.
Implicit Types (w : World) (data : EmailSendOptions) (s : State).

Lemma sendMail_unset w data s :
  transporter s = None → sendMail w data s = (Resolved tt, s).
Proof.
  intros Ht. unfold sendMail, mbind, Async_bind, get_transporter. by rewrite Ht.
Qed.

Lemma new_effects_unchanged {A : Type} (m : Async A) s (r : Outcome A) :
  m s = (r, s) → new_effects m s = [].
Proof.
  intros E. apply new_effects_app. rewrite E. simpl. by rewrite app_nil_r.
Qed.

(** What one call of [sendMail] adds to the calls made so far. *)
Lemma sendMail_new_effects w data s :
  new_effects (sendMail w data) s =
    match transporter s with
    | None => []
    | Some t =>
        if Oy_accepts (render_options data) then
          send_attempt w data t ++
          match transport_sendMail_result w t (envelope w data) with
          | Resolved info =>
              if useTestEmailService w
              then [EGetTestMessageUrl info;
                    ELog "Email Preview URL: %s" [getTestMessageUrl_result w info]]
              else []
          | Rejected e =>
              if truthy (env w !! "SENTRY_DSN") then [ESentryCapture e] else []
          end
        else [ERenderTemplate (html data) (render_options data)]
    end.
Proof.
  destruct (transporter s) as [t|] eqn:Ht.
  - destruct (Oy_accepts (render_options data)) eqn:Hok.
    + pose proof (sendMail_connected w data s t Ht Hok) as E.
      apply new_effects_app. rewrite E.
      by destruct (transport_sendMail_result w t (envelope w data)).
    + apply new_effects_app. by rewrite (sendMail_refused w data s t Ht Hok).
  - by apply new_effects_unchanged with (Resolved tt), sendMail_unset.
Qed.

(** X7. With a transporter resolved and a message that has what
    [Oy.renderTemplate] requires, when the transport accepts the envelope
    [sendMail] resolves and reports nothing to Sentry; it looks up the
    preview URL of the sent message exactly when the test email service is in
    use ([NODE_ENV] is ["development"] and [SMTP_USERNAME] is unset or
    empty), and not otherwise. *)
Theorem sendMail_success w data s t (info : SentInfo) :
  transporter s = Some t →
  Oy_accepts (render_options data) = true →
  transport_sendMail_result w t (envelope w data) = Resolved info →
  (sendMail w data s).1 = Resolved tt ∧
  sentry_reports (new_effects (sendMail w data) s) = [] ∧
  preview_lookups (new_effects (sendMail w data) s) =
    (if strict_eq (env w !! "NODE_ENV") "development"
        && negb (truthy (env w !! "SMTP_USERNAME"))
     then [info] else []).
Proof.
  intros Ht Hok Hsent. split.
  - by rewrite (sendMail_connected w data s t Ht Hok), Hsent.
  - rewrite sendMail_new_effects, Ht, Hok, Hsent. fold (useTestEmailService w).
    by destruct (useTestEmailService w).
Qed.

(** X8. Whatever [sendMail] reports to Sentry is the error it rejects
    with: a report happens only when a transporter is resolved, the transport
    refused the envelope with that error, and [SENTRY_DSN] is set. *)
Theorem sendMail_reports_only_its_failure w data s (e : Error) :
  e ∈ sentry_reports (new_effects (sendMail w data) s) →
  (sendMail w data s).1 = Rejected e ∧
  truthy (env w !! "SENTRY_DSN") = true ∧
  ∃ t, transporter s = Some t ∧
       transport_sendMail_result w t (envelope w data) = Rejected e.
Proof.
  rewrite sendMail_new_effects.
  destruct (transporter s) as [t|] eqn:Ht; [|by intros ?%elem_of_nil].
  destruct (Oy_accepts (render_options data)) eqn:Hok; [|by intros ?%elem_of_nil].
  pose proof (sendMail_connected w data s t Ht Hok) as E.
  destruct (transport_sendMail_result w t (envelope w data)) as [info|e'] eqn:Hres.
  - destruct (useTestEmailService w); by intros ?%elem_of_nil.
  - destruct (truthy (env w !! "SENTRY_DSN")); [|by intros ?%elem_of_nil].
    intros ->%list_elem_of_singleton. rewrite E. split; [done|]. split; [done|].
    by exists t.
Qed.

(** X9. [sendMail] never resolves a transport again and never touches the
    queue: it leaves the transporter as it was, and calls neither
    [createTransport] nor [createTestAccount] nor [emailsQueue.add]. *)
Theorem sendMail_keeps_transporter w data s :
  transporter (sendMail w data s).2 = transporter s ∧
  transports_created (new_effects (sendMail w data) s) = [] ∧
  test_account_requests (new_effects (sendMail w data) s) = 0%nat ∧
  queue_adds (new_effects (sendMail w data) s) = [].
Proof.
  rewrite sendMail_new_effects.
  destruct (transporter s) as [t|] eqn:Ht.
  - destruct (Oy_accepts (render_options data)) eqn:Hok.
    + rewrite (sendMail_connected w data s t Ht Hok).
      destruct (transport_sendMail_result w t (envelope w data)).
      * by destruct (useTestEmailService w).
      * by destruct (truthy (env w !! "SENTRY_DSN")).
    + by rewrite (sendMail_refused w data s t Ht Hok).
  - by rewrite (sendMail_unset w data s Ht).
Qed.

(** X10. The log lines of one [sendMail]: none without a transporter, and
    none when [Oy.renderTemplate] throws; otherwise the line naming the title
    and the recipient, followed by the preview URL line when the transport
    accepted the envelope and the test email service is in use.  A refused
    delivery adds no log line. *)
Theorem sendMail_log_lines w data s :
  log_lines (new_effects (sendMail w data) s) =
    match transporter s with
    | None => []
    | Some t =>
        if Oy_accepts (render_options data) then
          ("Sending email " +:+ dquote +:+ title data +:+ dquote +:+ " to " +:+ send_to data,
           [])
          :: match transport_sendMail_result w t (envelope w data) with
             | Resolved info =>
                 if useTestEmailService w
                 then [("Email Preview URL: %s", [getTestMessageUrl_result w info])]
                 else []
             | Rejected _ => []
             end
        else []
    end.
Proof.
  rewrite sendMail_new_effects.
  destruct (transporter s) as [t|]; [|done].
  destruct (Oy_accepts (render_options data)); [|done].
  destruct (transport_sendMail_result w t (envelope w data)).
  - by destruct (useTestEmailService w).
  - by destruct (truthy (env w !! "SENTRY_DSN")).
Qed.

(** X18. With a transporter resolved, a message without a title or
    without a preview text makes [Oy.renderTemplate] throw before the [try]:
    [sendMail] rejects with that error after the one render call, and
    neither logs, nor hands anything to the transport, nor reports to Sentry,
    whatever [SENTRY_DSN] is. *)
Theorem sendMail_render_refused w data s t :
  transporter s = Some t →
  title data = EmptyString ∨ truthy (previewText data) = false →
  (sendMail w data s).1 = Rejected (renderTemplate_error w (render_options data)) ∧
  new_effects (sendMail w data) s = [ERenderTemplate (html data) (render_options data)] ∧
  transport_sends (new_effects (sendMail w data) s) = [] ∧
  sentry_reports (new_effects (sendMail w data) s) = [] ∧
  log_lines (new_effects (sendMail w data) s) = [].
Proof.
  intros Ht Hmissing.
  assert (Hno : Oy_accepts (render_options data) = false).
  { unfold Oy_accepts, render_options. cbn -[truthy].
    destruct Hmissing as [-> | ->]; [done|]. by rewrite andb_false_r. }
  rewrite sendMail_new_effects, Ht, Hno.
  by rewrite (sendMail_refused w data s t Ht Hno).
Qed.

(** X11. [sendTemplate] does not depend on the transport: with or without
    a transporter it settles as the queue's [add] does (so a refusal of the
    queue rejects it), leaves the transporter alone, and renders nothing,
    sends nothing, reports nothing to Sentry and logs nothing. *)
Theorem sendTemplate_independent_of_transport w (type : string) (opts : option Value) s :
  (sendTemplate w type opts s).1 =
    queue_add_result w {| job_type := type; job_opts := default (VObject FNil) opts |}
      queue_options ∧
  transporter (sendTemplate w type opts s).2 = transporter s ∧
  renders (new_effects (sendTemplate w type opts) s) = [] ∧
  transport_sends (new_effects (sendTemplate w type opts) s) = [] ∧
  sentry_reports (new_effects (sendTemplate w type opts) s) = [] ∧
  log_lines (new_effects (sendTemplate w type opts) s) = [].
Proof.
  rewrite (new_effects_app _ s
             [EQueueAdd {| job_type := type; job_opts := default (VObject FNil) opts |}
                queue_options])
    by (by rewrite sendTemplate_run).
  by rewrite sendTemplate_run.
Qed.

End Sender.

(** ** The dispatcher methods, one by one *)

Section Dispatchers.
Context `{EmailTemplates}.
Implicit Types (w : World) (s : State).

(** Splits a conjunction over the dispatcher methods into one goal each. *)
Ltac split_dispatchers :=
  repeat match goal with |- _ ∧ _ => split end.

Lemma detach_sendMail_silent w (data : EmailSendOptions) s :
  transporter s = None → detach (sendMail w data) s = (Resolved tt, s).
Proof. intros Ht. unfold detach. by rewrite (sendMail_unset w data s Ht). Qed.

Lemma detach_sendMail_delivers w (data : EmailSendOptions) s t :
  transporter s = Some t →
  Oy_accepts (render_options data) = true →
  headCSS data = None →
  (λ sent, (sent.1, env_to sent.2, env_subject sent.2)) <$>
    transport_sends (new_effects (detach (sendMail w data)) s)
    = [(t, send_to data, title data)] ∧
  (λ r, (render_title r.2, render_headCSS r.2)) <$>
    renders (new_effects (detach (sendMail w data)) s)
    = [(title data, baseStyles +:+ " ")].
Proof.
  intros Ht Hok Hcss.
  change (new_effects (detach (sendMail w data)) s)
    with (new_effects (sendMail w data) s).
  split; [by rewrite (sendMail_sends w data s t Ht Hok)|].
  rewrite sendMail_new_effects, Ht, Hok. unfold send_attempt, render_options. rewrite Hcss.
  destruct (transport_sendMail_result w t (envelope w data)).
  - by destruct (useTestEmailService w).
  - by destruct (truthy (env w !! "SENTRY_DSN")).
Qed.

(** X12. On a mailer without a transporter each of the seven dispatcher
    methods resolves without doing anything: no render, no log, no send. *)
Theorem dispatchers_silent_without_transporter :
  silent_without_transporter welcome ∧
  silent_without_transporter exportSuccess ∧
  silent_without_transporter exportFailure ∧
  silent_without_transporter invite ∧
  silent_without_transporter signin ∧
  silent_without_transporter documentNotification ∧
  silent_without_transporter collectionNotification.
Proof.
  split_dispatchers; intros w opts s Ht; by apply detach_sendMail_silent.
Qed.

(** X13. On a mailer with a transporter each dispatcher method hands it
    exactly one envelope, addressed to the [to] of its options, with the
    subject of its type: fixed for welcome, the two exports (which share
    one) and signin; built from the actor and the team for an invitation; the
    quoted document title or collection name followed by the event name for
    the two notifications.  No method passes a [headCSS], so each renders
    with the base stylesheet followed by one space. *)
Theorem dispatchers_deliver :
  delivers welcome welcome_to (λ _, "Welcome to Outline") ∧
  delivers exportSuccess exportSuccess_to (λ _, "Your requested export") ∧
  delivers exportFailure exportFailure_to (λ _, "Your requested export") ∧
  delivers invite to
    (λ opts, actorName (props opts) +:+ " invited you to join "
             +:+ teamName (props opts) +:+ "’s knowledge base") ∧
  delivers signin signin_to (λ _, "Magic signin link") ∧
  delivers documentNotification to
    (λ opts, "“" +:+ document_title (props opts) +:+ "” "
             +:+ document_eventName (props opts)) ∧
  delivers collectionNotification to
    (λ opts, "“" +:+ collection_name (props opts) +:+ "” "
             +:+ collection_eventName (props opts)).
Proof.
  split_dispatchers; intros w opts s t Ht.
  - by apply (detach_sendMail_delivers w (welcome_message opts) s t Ht
                (welcome_accepted opts)).
  - by apply (detach_sendMail_delivers w (exportSuccess_message opts) s t Ht
                (exportSuccess_accepted opts)).
  - by apply (detach_sendMail_delivers w (exportFailure_message opts) s t Ht
                (exportFailure_accepted opts)).
  - by apply (detach_sendMail_delivers w (invite_message opts) s t Ht
                (invite_accepted opts)).
  - by apply (detach_sendMail_delivers w (signin_message opts) s t Ht
                (signin_accepted opts)).
  - by apply (detach_sendMail_delivers w (documentNotification_message opts) s t Ht
                (documentNotification_accepted opts)).
  - by apply (detach_sendMail_delivers w (collectionNotification_message opts) s t Ht
                (collectionNotification_accepted opts)).
Qed.

End Dispatchers.

(** ** From construction to delivery *)

Section Lifecycle.
Context `{EmailTemplates}.
Implicit Types (w : World) (data : EmailSendOptions).

Lemma constructor_state w :
  (constructor w new_Mailer).2 = (loadTransport_until_await w new_Mailer).2.
Proof. reflexivity. Qed.

Lemma constructor_smtp w :
  truthy (env w !! "SMTP_HOST") = true →
  (constructor w new_Mailer).2 =
    {| transporter := Some {| options := env_config w |};
       effects := [ECreateTransport (env_config w)] |}.
Proof.
  intros Hhost. by rewrite constructor_state, loadTransport_until_await_run, Hhost.
Qed.

(** X14. With [SMTP_HOST] set, a mailer built by [new Mailer()] holds,
    as soon as the constructor returns, the transport created from the
    environment's configuration, and no test account has been requested; a
    [sendMail] of a message that has what [Oy.renderTemplate] requires hands
    exactly one envelope to that transport. *)
Theorem smtp_lifecycle w data :
  truthy (env w !! "SMTP_HOST") = true →
  Oy_accepts (render_options data) = true →
  transporter (constructor w new_Mailer).2 = Some {| options := env_config w |} ∧
  test_account_requests (effects (constructor w new_Mailer).2) = 0%nat ∧
  transport_sends (new_effects (sendMail w data) (constructor w new_Mailer).2) =
    [({| options := env_config w |}, envelope w data)].
Proof.
  intros Hhost Hok. rewrite (constructor_smtp w Hhost). split; [done|]. split; [done|].
  by apply sendMail_sends.
Qed.

(** X15. In development with no [SMTP_HOST] and no [SMTP_USERNAME]:
    when [new Mailer()] returns, the test account has been requested and the
    transporter is still unset, so a [sendMail] made before the account
    arrives is dropped without a trace.  Once the account has arrived and the
    suspended [loadTransport] has been resumed, a [sendMail] of a message
    that has what [Oy.renderTemplate] requires goes through the sandbox
    transport, and if the sandbox accepts it [sendMail] resolves and logs two
    lines: the one naming title and recipient, then the preview URL. *)
Theorem sandbox_lifecycle w data (testAccount : TestAccount) (info : SentInfo) :
  truthy (env w !! "SMTP_HOST") = false →
  env w !! "NODE_ENV" = Some "development" →
  truthy (env w !! "SMTP_USERNAME") = false →
  createTestAccount_result w = Resolved testAccount →
  Oy_accepts (render_options data) = true →
  transport_sendMail_result w {| options := sandbox_config testAccount |} (envelope w data)
    = Resolved info →
  (test_account_requests (effects (constructor w new_Mailer).2) = 1%nat ∧
   sendMail w data (constructor w new_Mailer).2
     = (Resolved tt, (constructor w new_Mailer).2)) ∧
  (sendMail w data (constructor_settled w (constructor w new_Mailer).2).2).1
    = Resolved tt ∧
  transport_sends
    (new_effects (sendMail w data) (constructor_settled w (constructor w new_Mailer).2).2) =
    [({| options := sandbox_config testAccount |}, envelope w data)] ∧
  log_lines
    (new_effects (sendMail w data) (constructor_settled w (constructor w new_Mailer).2).2) =
    [("Sending email " +:+ dquote +:+ title data +:+ dquote +:+ " to " +:+ send_to data, []);
     ("Email Preview URL: %s", [getTestMessageUrl_result w info])].
Proof.
  intros Hhost Hdev Huser Hacct Hok Hsent.
  assert (Htest : useTestEmailService w = true) by (by apply useTestEmailService_spec).
  assert (Hs1 : (constructor w new_Mailer).2 =
    {| transporter := None;
       effects := [ELog "SMTP_USERNAME not provided, generating test account…" [];
                   ECreateTestAccount] |}).
  { by rewrite constructor_state, loadTransport_until_await_run, Hhost, Htest. }
  assert (Hs2 : transporter (constructor_settled w (constructor w new_Mailer).2).2
                = Some {| options := sandbox_config testAccount |}).
  { unfold constructor_settled, detach. cbn [snd].
    by rewrite loadTransport_after_await_run, Hhost, Htest, Hacct. }
  split; [|split; [|split]].
  - rewrite Hs1. split; [done|]. by apply sendMail_unset.
  - by rewrite (sendMail_connected w data _ _ Hs2 Hok), Hsent.
  - by apply sendMail_sends.
  - rewrite sendMail_new_effects, Hs2, Hok, Hsent, Htest. reflexivity.
Qed.

(** X16. With no [SMTP_HOST], outside development or with an
    [SMTP_USERNAME] set, [new Mailer()] does nothing and every later
    [sendMail] is a silent success, while [sendTemplate] still puts the
    request on the queue and settles as the queue does. *)
Theorem disabled_lifecycle w :
  truthy (env w !! "SMTP_HOST") = false →
  env w !! "NODE_ENV" ≠ Some "development" ∨ truthy (env w !! "SMTP_USERNAME") = true →
  (constructor w new_Mailer).2 = new_Mailer ∧
  (∀ data, sendMail w data (constructor w new_Mailer).2 = (Resolved tt, new_Mailer)) ∧
  (∀ (type : string) (opts : option Value),
     sendTemplate w type opts (constructor w new_Mailer).2 =
       (queue_add_result w {| job_type := type; job_opts := default (VObject FNil) opts |}
          queue_options,
        {| transporter := None;
           effects := [EQueueAdd {| job_type := type; job_opts := default (VObject FNil) opts |}
                         queue_options] |})).
Proof.
  intros Hhost Hoff.
  assert (Hs : (constructor w new_Mailer).2 = new_Mailer).
  { rewrite constructor_state, loadTransport_until_await_run, Hhost.
    destruct (useTestEmailService w) eqn:Htest; [|done].
    apply useTestEmailService_spec in Htest as [Hdev Huser].
    destruct Hoff as [Hne|Hset]; [by destruct Hne|congruence]. }
  rewrite Hs. split; [done|]. split.
  - intros data. by apply sendMail_unset.
  - intros type opts. by rewrite sendTemplate_run.
Qed.

(** X17. The preview lookup follows the environment, not the transport:
    in development with an [SMTP_HOST] and no [SMTP_USERNAME], the mailer
    built by [new Mailer()] holds an SMTP transport without credentials, has
    requested no test account, and still looks up a preview URL for every
    message that has what [Oy.renderTemplate] requires and that the
    transport accepts. *)
Theorem development_smtp_previews w data (info : SentInfo) :
  truthy (env w !! "SMTP_HOST") = true →
  env w !! "NODE_ENV" = Some "development" →
  truthy (env w !! "SMTP_USERNAME") = false →
  Oy_accepts (render_options data) = true →
  transport_sendMail_result w {| options := env_config w |} (envelope w data) = Resolved info →
  (∃ cfg, transporter (constructor w new_Mailer).2 = Some {| options := cfg |} ∧
          host cfg = of_env (env w !! "SMTP_HOST") ∧ auth cfg = None) ∧
  test_account_requests (effects (constructor w new_Mailer).2) = 0%nat ∧
  preview_lookups (new_effects (sendMail w data) (constructor w new_Mailer).2) = [info].
Proof.
  intros Hhost Hdev Huser Hok Hsent.
  assert (Htest : useTestEmailService w = true) by (by apply useTestEmailService_spec).
  rewrite (constructor_smtp w Hhost). split; [|split; [done|]].
  - exists (env_config w). split; [done|]. split; [done|].
    unfold env_config. simpl. by rewrite Huser.
  - rewrite sendMail_new_effects. simpl. by rewrite Hok, Hsent, Htest.
Qed.

End Lifecycle.

(** ** Further scenarios *)

Section MoreScenarios.
#[local] Existing Instance Sample.templates.

(** The development machine on which the test account is created. *)
Lemma loadTransport_sandbox_witness :
  truthy (env Sample.development !! "SMTP_HOST") = false ∧
  env Sample.development !! "NODE_ENV" = Some "development" ∧
  truthy (env Sample.development !! "SMTP_USERNAME") = false ∧
  createTestAccount_result Sample.development
    = Resolved {| account_user := "u@ethereal.email"; account_pass := "secret" |} ∧
  loadTransport Sample.development new_Mailer =
    (Resolved tt,
     {| transporter :=
          Some {| options :=
                    {| host := VString "smtp.ethereal.email";
                       port := VNumber 587;
                       secure := false;
                       auth := Some {| user := VString "u@ethereal.email";
                                       pass := VString "secret" |};
                       tls := None |} |};
        effects := effects new_Mailer ++
          [ELog "SMTP_USERNAME not provided, generating test account…" [];
           ECreateTestAccount;
           ECreateTransport
             {| host := VString "smtp.ethereal.email";
                port := VNumber 587;
                secure := false;
                auth := Some {| user := VString "u@ethereal.email";
                                pass := VString "secret" |};
                tls := None |}] |}).
Proof.
  split; [vm_compute; reflexivity|]. split; [vm_compute; reflexivity|].
  split; [vm_compute; reflexivity|]. split; [reflexivity|].
  apply (loadTransport_sandbox Sample.development new_Mailer
           {| account_user := "u@ethereal.email"; account_pass := "secret" |}).
  - vm_compute. reflexivity.
  - vm_compute. reflexivity.
  - vm_compute. reflexivity.
  - reflexivity.
Defined.

(** Production without mail settings: nothing happens. *)
Lemma loadTransport_disabled_witness :
  truthy (env Sample.production_unconfigured !! "SMTP_HOST") = false ∧
  (env Sample.production_unconfigured !! "NODE_ENV" ≠ Some "development"
   ∨ truthy (env Sample.production_unconfigured !! "SMTP_USERNAME") = true) ∧
  loadTransport Sample.production_unconfigured new_Mailer = (Resolved tt, new_Mailer).
Proof.
  split; [vm_compute; reflexivity|].
  split; [left; vm_compute; discriminate|].
  apply (loadTransport_disabled Sample.production_unconfigured new_Mailer).
  - vm_compute. reflexivity.
  - left. vm_compute. discriminate.
Defined.

(** A delivery accepted in production: resolved, no report, no preview. *)
Lemma sendMail_success_witness :
  transporter Sample.connected = Some Sample.smtp ∧
  Oy_accepts (render_options (welcome_message Sample.welcome_opts)) = true ∧
  transport_sendMail_result Sample.production Sample.smtp
    (envelope Sample.production (welcome_message Sample.welcome_opts))
    = Resolved {| messageId := "m1" |} ∧
  (sendMail Sample.production (welcome_message Sample.welcome_opts) Sample.connected).1
    = Resolved tt ∧
  sentry_reports
    (new_effects (sendMail Sample.production (welcome_message Sample.welcome_opts))
       Sample.connected) = [] ∧
  preview_lookups
    (new_effects (sendMail Sample.production (welcome_message Sample.welcome_opts))
       Sample.connected) =
    (if strict_eq (env Sample.production !! "NODE_ENV") "development"
        && negb (truthy (env Sample.production !! "SMTP_USERNAME"))
     then [{| messageId := "m1" |}] else []).
Proof.
  split; [reflexivity|]. split; [reflexivity|]. split; [reflexivity|].
  apply (sendMail_success Sample.production (welcome_message Sample.welcome_opts)
           Sample.connected Sample.smtp {| messageId := "m1" |}); reflexivity.
Defined.

(** The report made in the monitored world is the refusal [sendMail]
    rejects with. *)
Lemma sendMail_reports_only_its_failure_witness :
  Sample.refused ∈
    sentry_reports
      (new_effects (sendMail Sample.monitored (welcome_message Sample.welcome_opts))
         Sample.connected) ∧
  (sendMail Sample.monitored (welcome_message Sample.welcome_opts) Sample.connected).1
    = Rejected Sample.refused ∧
  truthy (env Sample.monitored !! "SENTRY_DSN") = true ∧
  ∃ t, transporter Sample.connected = Some t ∧
       transport_sendMail_result Sample.monitored t
         (envelope Sample.monitored (welcome_message Sample.welcome_opts))
       = Rejected Sample.refused.
Proof.
  assert (Hin : Sample.refused ∈
    sentry_reports
      (new_effects (sendMail Sample.monitored (welcome_message Sample.welcome_opts))
         Sample.connected)).
  { vm_compute. constructor. }
  split; [exact Hin|].
  apply (sendMail_reports_only_its_failure Sample.monitored
           (welcome_message Sample.welcome_opts) Sample.connected Sample.refused Hin).
Defined.

(** The production deployment, from construction to the envelope. *)
Lemma smtp_lifecycle_witness :
  truthy (env Sample.production !! "SMTP_HOST") = true ∧
  Oy_accepts (render_options (welcome_message Sample.welcome_opts)) = true ∧
  transporter (constructor Sample.production new_Mailer).2
    = Some {| options := env_config Sample.production |} ∧
  test_account_requests (effects (constructor Sample.production new_Mailer).2) = 0%nat ∧
  transport_sends
    (new_effects (sendMail Sample.production (welcome_message Sample.welcome_opts))
       (constructor Sample.production new_Mailer).2) =
    [({| options := env_config Sample.production |},
      envelope Sample.production (welcome_message Sample.welcome_opts))].
Proof.
  split; [vm_compute; reflexivity|]. split; [reflexivity|].
  apply (smtp_lifecycle Sample.production (welcome_message Sample.welcome_opts)).
  - vm_compute. reflexivity.
  - reflexivity.
Defined.

(** The development machine, from construction to the preview URL. *)
Lemma sandbox_lifecycle_witness :
  truthy (env Sample.development !! "SMTP_HOST") = false ∧
  env Sample.development !! "NODE_ENV" = Some "development" ∧
  truthy (env Sample.development !! "SMTP_USERNAME") = false ∧
  createTestAccount_result Sample.development
    = Resolved {| account_user := "u@ethereal.email"; account_pass := "secret" |} ∧
  Oy_accepts (render_options (welcome_message Sample.welcome_opts)) = true ∧
  transport_sendMail_result Sample.development
    {| options :=
         sandbox_config {| account_user := "u@ethereal.email"; account_pass := "secret" |} |}
    (envelope Sample.development (welcome_message Sample.welcome_opts))
    = Resolved {| messageId := "m1" |} ∧
  (test_account_requests (effects (constructor Sample.development new_Mailer).2) = 1%nat ∧
   sendMail Sample.development (welcome_message Sample.welcome_opts)
     (constructor Sample.development new_Mailer).2
     = (Resolved tt, (constructor Sample.development new_Mailer).2)) ∧
  (sendMail Sample.development (welcome_message Sample.welcome_opts)
     (constructor_settled Sample.development
        (constructor Sample.development new_Mailer).2).2).1 = Resolved tt ∧
  transport_sends
    (new_effects (sendMail Sample.development (welcome_message Sample.welcome_opts))
       (constructor_settled Sample.development
          (constructor Sample.development new_Mailer).2).2) =
    [({| options :=
           sandbox_config {| account_user := "u@ethereal.email"; account_pass := "secret" |} |},
      envelope Sample.development (welcome_message Sample.welcome_opts))] ∧
  log_lines
    (new_effects (sendMail Sample.development (welcome_message Sample.welcome_opts))
       (constructor_settled Sample.development
          (constructor Sample.development new_Mailer).2).2) =
    [("Sending email " +:+ dquote +:+ title (welcome_message Sample.welcome_opts)
        +:+ dquote +:+ " to " +:+ send_to (welcome_message Sample.welcome_opts), []);
     ("Email Preview URL: %s",
      [getTestMessageUrl_result Sample.development {| messageId := "m1" |}])].
Proof.
  split; [vm_compute; reflexivity|]. split; [vm_compute; reflexivity|].
  split; [vm_compute; reflexivity|]. split; [reflexivity|].
  split; [reflexivity|]. split; [reflexivity|].
  apply (sandbox_lifecycle Sample.development (welcome_message Sample.welcome_opts)
           {| account_user := "u@ethereal.email"; account_pass := "secret" |}
           {| messageId := "m1" |}).
  - vm_compute. reflexivity.
  - vm_compute. reflexivity.
  - vm_compute. reflexivity.
  - reflexivity.
  - reflexivity.
  - reflexivity.
Defined.

(** Production without mail settings: sends are silent, the queue still
    takes requests. *)
Lemma disabled_lifecycle_witness :
  truthy (env Sample.production_unconfigured !! "SMTP_HOST") = false ∧
  (env Sample.production_unconfigured !! "NODE_ENV" ≠ Some "development"
   ∨ truthy (env Sample.production_unconfigured !! "SMTP_USERNAME") = true) ∧
  (constructor Sample.production_unconfigured new_Mailer).2 = new_Mailer ∧
  (∀ data,
     sendMail Sample.production_unconfigured data
       (constructor Sample.production_unconfigured new_Mailer).2
     = (Resolved tt, new_Mailer)) ∧
  (∀ (type : string) (opts : option Value),
     sendTemplate Sample.production_unconfigured type opts
       (constructor Sample.production_unconfigured new_Mailer).2 =
       (queue_add_result Sample.production_unconfigured
          {| job_type := type; job_opts := default (VObject FNil) opts |} queue_options,
        {| transporter := None;
           effects := [EQueueAdd {| job_type := type; job_opts := default (VObject FNil) opts |}
                         queue_options] |})).
Proof.
  split; [vm_compute; reflexivity|].
  split; [left; vm_compute; discriminate|].
  apply (disabled_lifecycle Sample.production_unconfigured).
  - vm_compute. reflexivity.
  - left. vm_compute. discriminate.
Defined.

(** The development machine pointed at a local SMTP server. *)
Lemma development_smtp_previews_witness :
  truthy (env Sample.development_smtp !! "SMTP_HOST") = true ∧
  env Sample.development_smtp !! "NODE_ENV" = Some "development" ∧
  truthy (env Sample.development_smtp !! "SMTP_USERNAME") = false ∧
  Oy_accepts (render_options (welcome_message Sample.welcome_opts)) = true ∧
  transport_sendMail_result Sample.development_smtp
    {| options := env_config Sample.development_smtp |}
    (envelope Sample.development_smtp (welcome_message Sample.welcome_opts))
    = Resolved {| messageId := "m1" |} ∧
  (∃ cfg,
     transporter (constructor Sample.development_smtp new_Mailer).2
       = Some {| options := cfg |} ∧
     host cfg = of_env (env Sample.development_smtp !! "SMTP_HOST") ∧ auth cfg = None) ∧
  test_account_requests (effects (constructor Sample.development_smtp new_Mailer).2) = 0%nat ∧
  preview_lookups
    (new_effects (sendMail Sample.development_smtp (welcome_message Sample.welcome_opts))
       (constructor Sample.development_smtp new_Mailer).2) = [{| messageId := "m1" |}].
Proof.
  split; [vm_compute; reflexivity|]. split; [vm_compute; reflexivity|].
  split; [vm_compute; reflexivity|].
  split; [reflexivity|]. split; [reflexivity|].
  apply (development_smtp_previews Sample.development_smtp
           (welcome_message Sample.welcome_opts) {| messageId := "m1" |}).
  - vm_compute. reflexivity.
  - vm_compute. reflexivity.
  - vm_compute. reflexivity.
  - reflexivity.
  - reflexivity.
Defined.

(** A message without preview text, sent in the monitored world: the render
    error comes back, nothing is sent and nothing is reported. *)
Lemma sendMail_render_refused_witness :
  transporter Sample.connected = Some Sample.smtp ∧
  (title Sample.without_preview = EmptyString
   ∨ truthy (previewText Sample.without_preview) = false) ∧
  (sendMail Sample.monitored Sample.without_preview Sample.connected).1
    = Rejected (renderTemplate_error Sample.monitored
                  (render_options Sample.without_preview)) ∧
  new_effects (sendMail Sample.monitored Sample.without_preview) Sample.connected
    = [ERenderTemplate (html Sample.without_preview)
         (render_options Sample.without_preview)] ∧
  transport_sends
    (new_effects (sendMail Sample.monitored Sample.without_preview) Sample.connected) = [] ∧
  sentry_reports
    (new_effects (sendMail Sample.monitored Sample.without_preview) Sample.connected) = [] ∧
  log_lines
    (new_effects (sendMail Sample.monitored Sample.without_preview) Sample.connected) = [].
Proof.
  split; [reflexivity|]. split; [right; reflexivity|].
  apply (sendMail_render_refused Sample.monitored Sample.without_preview
           Sample.connected Sample.smtp).
  - reflexivity.
  - right. reflexivity.
Defined.

(** A queue that cannot be reached rejects [sendTemplate], here on a mailer
    that is otherwise fully configured. *)
Example sendTemplate_queue_down :
  (sendTemplate Sample.production_queue_down "welcome" None
     (constructor Sample.production_queue_down new_Mailer).2).1
    = Rejected {| message := "Redis is down" |}.
Proof. reflexivity. Qed.

End MoreScenarios.
